(** * aos-mcp: the embedding and document tools over an OpenSearch index

    A shallow embedding of [src/tools/embedding.py] (class [EmbeddingTools]
    and the two tools it registers) and of [get_document] from
    [src/tools/document.py], together with the properties the specification
    states about them.

    Python values are modelled by the inductive [value]; a [dict] with
    string keys is a [gmap string value].  Calls that leave the process
    (the HTTP POST to the embedding provider, the calls on the index
    client) are recorded in a log and answered by an oracle, so that
    statements such as "no remote call is issued" are statements about the
    log.  Python exceptions are an explicit outcome of every computation. *)

From stdpp Require Import gmap strings list fin_maps pretty.
From Stdlib Require Import ZArith.

Set Warnings "-register-all".
Open Scope string_scope.
Open Scope list_scope.

(** ** Python values *)

(** A [float] is kept as its IEEE-754 binary64 bit pattern: the code never
    computes with the numbers of a vector, it only moves them around. *)
Inductive value : Type :=
| VNone
| VBool (b : bool)
| VInt (z : Z)
| VFloat (bits : Z)
| VStr (s : string)
| VList (l : list value)
| VDict (d : gmap string value).

Abbreviation dict := (gmap string value).

(** ** Exceptions *)

(** [RequestException] stands for [requests.exceptions.RequestException]
    and its subclasses; the others are the built-in exceptions the modelled
    code can raise, and [OtherException] any further subclass of
    [Exception] raised by a collaborator. *)
Inductive exn : Type :=
| RequestException (msg : string)
| KeyError (key_repr : string)
| IndexError (msg : string)
| AttributeError (msg : string)
| TypeError (msg : string)
| OtherException (msg : string).

(** [str(e)] *)
Definition str_exn (e : exn) : string :=
  match e with
  | RequestException m | IndexError m | AttributeError m
  | TypeError m | OtherException m => m
  | KeyError r => r
  end.

Inductive res (A : Type) : Type :=
| Ok (a : A)
| Exn (e : exn).
Arguments Ok {A} a.
Arguments Exn {A} e.

(** ** Built-in operations on values *)

Definition type_name (v : value) : string :=
  match v with
  | VNone => "NoneType"
  | VBool _ => "bool"
  | VInt _ => "int"
  | VFloat _ => "float"
  | VStr _ => "str"
  | VList _ => "list"
  | VDict _ => "dict"
  end.

Definition quoted (s : string) : string := "'" +:+ s +:+ "'".

(** [o[key]] for a string key. *)
Definition py_getitem_str (o : value) (key : string) : res value :=
  match o with
  | VDict d =>
      match d !! key with
      | Some v => Ok v
      | None => Exn (KeyError (quoted key))
      end
  | VList _ => Exn (TypeError "list indices must be integers or slices, not str")
  | VStr _ => Exn (TypeError "string indices must be integers, not 'str'")
  | _ => Exn (TypeError (quoted (type_name o) +:+ " object is not subscriptable"))
  end.

(** [o[0]] *)
Definition py_getitem_0 (o : value) : res value :=
  match o with
  | VList (x :: _) => Ok x
  | VList [] => Exn (IndexError "list index out of range")
  | VStr (String c _) => Ok (VStr (String c EmptyString))
  | VStr EmptyString => Exn (IndexError "string index out of range")
  | VDict _ => Exn (KeyError "0")
  | _ => Exn (TypeError (quoted (type_name o) +:+ " object is not subscriptable"))
  end.

(** [o.get(key, default)]: only a [dict] has the method. *)
Definition py_get (o : value) (key : string) (default : value) : res value :=
  match o with
  | VDict d =>
      match d !! key with
      | Some v => Ok v
      | None => Ok default
      end
  | _ => Exn (AttributeError
                (quoted (type_name o) +:+ " object has no attribute 'get'"))
  end.

(** [len(o)].  A [str] is modelled as the sequence of its characters, one
    per element of the [string]. *)
Definition py_len (o : value) : res nat :=
  match o with
  | VList l => Ok (length l)
  | VStr s => Ok (String.length s)
  | VDict d => Ok (size d)
  | _ => Exn (TypeError ("object of type " +:+ quoted (type_name o) +:+ " has no len()"))
  end.

Fixpoint chars (s : string) : list value :=
  match s with
  | EmptyString => []
  | String c s' => VStr (String c EmptyString) :: chars s'
  end.

(** The elements [for x in o] visits. *)
Definition py_iter (o : value) : res (list value) :=
  match o with
  | VList l => Ok l
  | VStr s => Ok (chars s)
  | VDict d => Ok (VStr <$> (map_to_list d).*1)
  | _ => Exn (TypeError (quoted (type_name o) +:+ " object is not iterable"))
  end.

(** [o.items()]: only a [dict] has the method. *)
Definition py_items (o : value) : res dict :=
  match o with
  | VDict d => Ok d
  | _ => Exn (AttributeError
                (quoted (type_name o) +:+ " object has no attribute 'items'"))
  end.

(** [v == s] for a string literal [s]. *)
Definition value_eq_str (v : value) (s : string) : bool :=
  match v with
  | VStr s' => bool_decide (s' = s)
  | _ => false
  end.

(** Truth value of an optional string: [None] and [""] are false. *)
Definition truthy_str (o : option string) : bool :=
  match o with
  | Some (String _ _) => true
  | _ => false
  end.

(** ** The outside world *)

Abbreviation loc := positive.

(** One constructor per call that leaves the process.  [EvPost] is the
    whole exchange [requests.post(...)], [raise_for_status()], [.json()];
    [EvSearch], [EvWrite] and [EvIndex] are the methods of the index client
    wrapper ([self.aos_client]); [EvGetClient] and [EvBulk] are
    [self.aos_client.get_client()] and [client.bulk(body=..., refresh=True)]. *)
Inductive event : Type :=
| EvPost (url : string) (payload : dict) (headers : gmap string string)
| EvSearch (query : string) (size : Z)
| EvWrite (document_id : string) (document : dict)
| EvIndex (document : dict)
| EvGetClient
| EvBulk (body : list value).

Inductive outcome : Type :=
| Returns (v : value)
| Raises (e : exn).

(** The state a computation threads: the store of the dictionaries the
    caller shares with the code, and the calls issued so far, oldest
    first. *)
Record state : Type := mkState {
  heap : gmap loc dict;
  log : list event
}.

Definition M (A : Type) : Type := state → res A * state.

Definition ret {A} (a : A) : M A := λ s, (Ok a, s).

Definition bind {A B} (m : M A) (f : A → M B) : M B :=
  λ s, match m s with
       | (Ok a, s') => f a s'
       | (Exn e, s') => (Exn e, s')
       end.

Definition raise {A} (e : exn) : M A := λ s, (Exn e, s).

Definition lift {A} (r : res A) : M A := λ s, (r, s).

(** [try: m except ... as e: handler e] *)
Definition try_except {A} (m : M A) (handler : exn → M A) : M A :=
  λ s, match m s with
       | (Ok a, s') => (Ok a, s')
       | (Exn e, s') => handler e s'
       end.

Declare Scope py_scope.
Delimit Scope py_scope with py.
Notation "x <- m ;; k" := (bind m (λ x, k))
  (at level 100, m at next level, right associativity) : py_scope.
Open Scope py_scope.

(** ** Configuration: [EmbeddingTools.__init__] *)

(** [index_name] is [self.aos_client._index_name]; the client itself is the
    oracle of the section below. *)
Record EmbeddingTools : Type := mkEmbeddingTools {
  index_name : string;
  api_token : option string;
  embedding_api_url : string;
  default_model : string;
  vector_field : string;
  vector_dimension : nat
}.

Definition init (index_name : string) (api_token : option string) : EmbeddingTools :=
  {| index_name := index_name;
     api_token := api_token;
     embedding_api_url := "https://api.siliconflow.cn/v1/embeddings";
     default_model := "Pro/BAAI/bge-m3";
     vector_field := "dense_vector";
     vector_dimension := 1024 |}.

(** ** Result dictionaries *)

Definition error_result (message : string) : value :=
  VDict {[ "status" := VStr "error"; "message" := VStr message ]}.

(** The [status] entry of a result, when it is a string. *)
Definition status_of (r : value) : option string :=
  match r with
  | VDict d => match d !! "status" with Some (VStr s) => Some s | _ => None end
  | _ => None
  end.

Definition message_of (r : value) : option string :=
  match r with
  | VDict d => match d !! "message" with Some (VStr s) => Some s | _ => None end
  | _ => None
  end.

Definition field_of (r : value) (key : string) : option value :=
  match r with
  | VDict d => d !! key
  | _ => None
  end.

Section Tools.

(** [json.dumps], of the Python standard library. *)
Variable json_dumps : value → string.

(** What the outside world answers to a call, given the calls before it. *)
Variable respond : list event → event → outcome.

Variable self : EmbeddingTools.

Definition call (e : event) : M value :=
  λ s, let s' := mkState (heap s) (log s ++ [e]) in
       match respond (log s) e with
       | Returns v => (Ok v, s')
       | Raises x => (Exn x, s')
       end.

(** *** [EmbeddingTools.generate_embedding] *)

Definition embedding_payload (text : value) (model_name : string) : dict :=
  {[ "model" := VStr model_name;
     "input" := text;
     "encoding_format" := VStr "float" ]}.

Definition embedding_headers (token : string) : gmap string string :=
  {[ "Authorization" := "Bearer " +:+ token;
     "Content-Type" := "application/json" ]}.

Definition generate_embedding (text : value) (model : option string) : M value :=
  if negb (truthy_str (api_token self)) then
    ret (error_result "API token not configured for embedding service")
  else
    try_except
      (let model_name :=
         if truthy_str model then default "" model else default_model self in
       let payload := embedding_payload text model_name in
       let headers := embedding_headers (default "" (api_token self)) in
       result <- call (EvPost (embedding_api_url self) payload headers) ;;
       data <- lift (py_get result "data" (VList [VDict ∅])) ;;
       first <- lift (py_getitem_0 data) ;;
       embedding <- lift (py_get first "embedding" (VList [])) ;;
       ret (VDict {[ "status" := VStr "success";
                     "embedding" := embedding;
                     "model" := VStr model_name ]}))
      (λ e, match e with
            | RequestException _ =>
                ret (error_result ("API request failed: " +:+ str_exn e))
            | _ => ret (error_result ("Unexpected error: " +:+ str_exn e))
            end).

(** *** [EmbeddingTools.knn_search] *)

Definition knn_query (vector : value) (k : Z) : value :=
  VDict {[ "size" := VInt k;
           "query" := VDict {[ "knn" := VDict {[ vector_field self :=
                        VDict {[ "vector" := vector; "k" := VInt k ]} ]} ]};
           "_source" := VDict {[ "excludes" := VList [VStr (vector_field self)] ]} ]}.

(** The dict comprehension
    [{k: v for k, v in source.items() if k != "text" and k != self.vector_field}] *)
Definition metadata_of (source : dict) : dict :=
  filter (λ kv, kv.1 ≠ "text" ∧ kv.1 ≠ vector_field self) source.

(** The body of the loop over the hits: one simplified result.  The
    entries of the new dictionary are evaluated in the order they are
    written. *)
Definition simplify_hit (hit : value) : res value :=
  match py_get hit "_source" (VDict ∅) with
  | Exn e => Exn e
  | Ok source =>
      match py_get hit "_id" VNone with
      | Exn e => Exn e
      | Ok id =>
          match py_get hit "_score" VNone with
          | Exn e => Exn e
          | Ok score =>
              match py_get source "text" (VStr "") with
              | Exn e => Exn e
              | Ok text =>
                  match py_items source with
                  | Exn e => Exn e
                  | Ok items =>
                      Ok (VDict {[ "id" := id; "score" := score; "text" := text;
                                   "metadata" := VDict (metadata_of items) ]})
                  end
              end
          end
      end
  end.

Fixpoint simplify_hits (hits : list value) : res (list value) :=
  match hits with
  | [] => Ok []
  | hit :: rest =>
      match simplify_hit hit with
      | Exn e => Exn e
      | Ok item =>
          match simplify_hits rest with
          | Exn e => Exn e
          | Ok items => Ok (item :: items)
          end
      end
  end.

(** [key in o], where the code applies it: after [o["status"]] has been
    read, so that [o] is a dictionary. *)
Definition has_key (key : string) (o : value) : bool :=
  match o with
  | VDict d => bool_decide (is_Some (d !! key))
  | _ => false
  end.

Definition knn_search (vector : value) (k : Z) : M value :=
  try_except
    (n <- lift (py_len vector) ;;
     if negb (n =? vector_dimension self)%nat then
       ret (error_result ("Vector dimension mismatch. Expected "
                          +:+ pretty (vector_dimension self)
                          +:+ ", got " +:+ pretty n))
     else
       result <- call (EvSearch (json_dumps (knn_query vector k)) k) ;;
       status <- lift (py_getitem_str result "status") ;;
       if value_eq_str status "success" && has_key "results" result then
         results <- lift (py_getitem_str result "results") ;;
         hits_outer <- lift (py_get results "hits" (VDict ∅)) ;;
         hits <- lift (py_get hits_outer "hits" (VList [])) ;;
         hit_list <- lift (py_iter hits) ;;
         simplified_results <- lift (simplify_hits hit_list) ;;
         ret (VDict {[ "status" := VStr "success";
                       "results" := VList simplified_results;
                       "total" := VInt (Z.of_nat (length simplified_results)) ]})
       else
         ret result)
    (λ e, ret (error_result ("kNN search error: " +:+ str_exn e))).

(** *** [EmbeddingTools.bulk_index_with_embeddings] *)

Definition failure (doc : dict) (reason : value) : value :=
  VDict {[ "doc" := VDict doc; "reason" := reason ]}.

(** The first loop, with its two accumulators.  [doc.copy()] followed by
    the assignment of the vector field is an insertion into the
    (immutable) map of the document. *)
Fixpoint embed_documents (text_field : string) (documents : list dict)
    (processed_docs : list dict) (failed_docs : list value)
    : M (list dict * list value) :=
  match documents with
  | [] => ret (processed_docs, failed_docs)
  | doc :: rest =>
      match doc !! text_field with
      | None =>
          embed_documents text_field rest processed_docs
            (failed_docs ++
               [failure doc (VStr ("Missing text field '" +:+ text_field +:+ "'"))])
      | Some text =>
          embedding_result <- generate_embedding text None ;;
          status <- lift (py_getitem_str embedding_result "status") ;;
          if negb (value_eq_str status "success") then
            reason <- lift (py_getitem_str embedding_result "message") ;;
            embed_documents text_field rest processed_docs
              (failed_docs ++ [failure doc reason])
          else
            embedding <- lift (py_getitem_str embedding_result "embedding") ;;
            embed_documents text_field rest
              (processed_docs ++ [<[vector_field self := embedding]> doc])
              failed_docs
      end
  end.

(** The second loop: an action header, then the document without its
    [_id], for each processed document. *)
Fixpoint bulk_body (processed_docs : list dict) : list value :=
  match processed_docs with
  | [] => []
  | doc :: rest =>
      match doc !! "_id" with
      | Some doc_id =>
          VDict {[ "index" := VDict {[ "_index" := VStr (index_name self);
                                       "_id" := doc_id ]} ]}
            :: VDict (delete "_id" doc) :: bulk_body rest
      | None =>
          VDict {[ "index" := VDict {[ "_index" := VStr (index_name self) ]} ]}
            :: VDict doc :: bulk_body rest
      end
  end.

Definition bulk_index_with_embeddings (documents : list dict) (text_field : string)
    : M value :=
  try_except
    (lists <- embed_documents text_field documents [] [] ;;
     let processed_docs := lists.1 in
     let failed_docs := lists.2 in
     match processed_docs with
     | [] =>
         ret (VDict {[ "status" := VStr "error";
                       "message" := VStr "No documents were processed successfully";
                       "failed_docs" := VList failed_docs ]})
     | _ :: _ =>
         client <- call EvGetClient ;;
         response <- call (EvBulk (bulk_body processed_docs)) ;;
         ret (VDict {[ "status" := VStr "success";
                       "response" := response;
                       "processed_count" := VInt (Z.of_nat (length processed_docs));
                       "failed_count" := VInt (Z.of_nat (length failed_docs));
                       "failed_docs" := match failed_docs with
                                        | [] => VNone
                                        | _ :: _ => VList failed_docs
                                        end ]})
     end)
    (λ e, ret (error_result ("Bulk indexing error: " +:+ str_exn e))).

(** *** The store of shared dictionaries *)

Definition deref (l : loc) : M dict :=
  λ s, (Ok (default ∅ (heap s !! l)), s).

(** A dict display [{}]: a new object. *)
Definition new_dict : M loc :=
  λ s, let l := fresh (dom (heap s)) in
       (Ok l, mkState (<[l := ∅]> (heap s)) (log s)).

(** [d[key] = v] on the object at [l]. *)
Definition setitem (l : loc) (key : string) (v : value) : M unit :=
  λ s, (Ok tt,
        mkState (<[l := <[key := v]> (default ∅ (heap s !! l))]> (heap s)) (log s)).

(** [metadata or {}]: the caller's object unless it is [None] or empty. *)
Definition metadata_or_new (metadata : option loc) : M loc :=
  match metadata with
  | None => new_dict
  | Some l =>
      d <- deref l ;;
      if (size d =? 0)%nat then new_dict else ret l
  end.

(** *** The tool [index_text_with_embedding] *)

Definition index_text_with_embedding (text : string) (document_id : option string)
    (metadata : option loc) : M value :=
  embedding_result <- generate_embedding (VStr text) None ;;
  status <- lift (py_getitem_str embedding_result "status") ;;
  if negb (value_eq_str status "success") then
    ret embedding_result
  else
    document <- metadata_or_new metadata ;;
    _ <- setitem document "text" (VStr text) ;;
    embedding <- lift (py_getitem_str embedding_result "embedding") ;;
    _ <- setitem document (vector_field self) embedding ;;
    contents <- deref document ;;
    if truthy_str document_id then
      call (EvWrite (default "" document_id) contents)
    else
      call (EvIndex contents).

(** *** The tool [text_similarity_search] *)

Definition text_similarity_search (text : string) (k : Z) : M value :=
  embedding_result <- generate_embedding (VStr text) None ;;
  status <- lift (py_getitem_str embedding_result "status") ;;
  if negb (value_eq_str status "success") then
    ret embedding_result
  else
    embedding <- lift (py_getitem_str embedding_result "embedding") ;;
    search_result <- knn_search embedding k ;;
    search_status <- lift (py_getitem_str search_result "status") ;;
    if value_eq_str search_status "success" then
      results <- lift (py_getitem_str search_result "results") ;;
      total <- lift (py_get search_result "total" (VInt 0)) ;;
      ret (VDict {[ "status" := VStr "success";
                    "query_text" := VStr text;
                    "results" := results;
                    "total" := total ]})
    else
      ret search_result.

(** *** The tool [get_document] of [DocumentTools] *)

Definition term_query (document_id : string) : value :=
  VDict {[ "query" := VDict {[ "term" := VDict {[ "_id" := VStr document_id ]} ]} ]}.

(** [result["results"]["hits"]["hits"]] *)
Definition raw_hits (result : value) : res value :=
  match py_getitem_str result "results" with
  | Exn e => Exn e
  | Ok results =>
      match py_getitem_str results "hits" with
      | Exn e => Exn e
      | Ok hits => py_getitem_str hits "hits"
      end
  end.

Definition get_document (document_id : string) : M value :=
  result <- call (EvSearch (json_dumps (term_query document_id)) 1) ;;
  status <- lift (py_getitem_str result "status") ;;
  found <- (if value_eq_str status "success" then
              hits <- lift (raw_hits result) ;;
              n <- lift (py_len hits) ;;
              ret (0 <? n)%nat
            else ret false) ;;
  if found then
    hits <- lift (raw_hits result) ;;
    document <- lift (py_getitem_0 hits) ;;
    ret (VDict {[ "status" := VStr "success"; "document" := document ]})
  else
    ret (error_result ("Document with ID " +:+ document_id +:+ " not found")).

End Tools.

Arguments call respond e s /.

(** ** Derived notions used in the statements *)

(** The expression [result.get("data", [{}])[0].get("embedding", [])]. *)
Definition first_embedding (body : value) : res value :=
  match py_get body "data" (VList [VDict ∅]) with
  | Exn e => Exn e
  | Ok data =>
      match py_getitem_0 data with
      | Exn e => Exn e
      | Ok first => py_get first "embedding" (VList [])
      end
  end.

Definition model_name_of (self : EmbeddingTools) (model : option string) : string :=
  if truthy_str model then default "" model else default_model self.

(** The one POST [generate_embedding] issues. *)
Definition post_event (self : EmbeddingTools) (text : value) (model : option string)
    : event :=
  EvPost (embedding_api_url self)
    (embedding_payload text (model_name_of self model))
    (embedding_headers (default "" (api_token self))).

Definition embedding_success (embedding : value) (model_name : string) : value :=
  VDict {[ "status" := VStr "success";
           "embedding" := embedding;
           "model" := VStr model_name ]}.

(** The result of [generate_embedding] as a function of the provider's
    answer. *)
Definition embedding_reply (model_name : string) (o : outcome) : value :=
  match o with
  | Raises (RequestException m) => error_result ("API request failed: " +:+ m)
  | Raises e => error_result ("Unexpected error: " +:+ str_exn e)
  | Returns body =>
      match first_embedding body with
      | Ok embedding => embedding_success embedding model_name
      | Exn e => error_result ("Unexpected error: " +:+ str_exn e)
      end
  end.

Definition add_event (s : state) (e : event) : state :=
  mkState (heap s) (log s ++ [e]).

Definition is_post (e : event) : Prop :=
  match e with EvPost _ _ _ => True | _ => False end.

(** ** Sample worlds, used to run the model on concrete inputs *)

Definition s0 : state := mkState ∅ [].

Definition json_dumps0 (v : value) : string := "<json>".

(** A world that answers by the kind of call only. *)
Definition respond_with (post search write bulk : outcome)
    (history : list event) (e : event) : outcome :=
  match e with
  | EvPost _ _ _ => post
  | EvSearch _ _ => search
  | EvWrite _ _ | EvIndex _ => write
  | EvGetClient => Returns VNone
  | EvBulk _ => bulk
  end.

Definition down : outcome := Raises (RequestException "connection refused").

(** A world in which every call fails at the transport level. *)
Definition respond_down : list event → event → outcome :=
  respond_with down down down down.

Definition tools_no_token : EmbeddingTools := init "kb" None.
Definition tools : EmbeddingTools := init "kb" (Some "sk-test").

(** A provider answer with HTTP status 200 and no [data] entry. *)
Definition body_without_data : value := VDict {[ "object" := VStr "list" ]}.

(** A provider answer whose first data entry has no [embedding]. *)
Definition body_without_embedding : value :=
  VDict {[ "data" := VList [VDict {[ "index" := VInt 0 ]}] ]}.

(** The search [knn_search] issues. *)
Definition search_event (json_dumps : value → string) (self : EmbeddingTools)
    (vector : value) (k : Z) : event :=
  EvSearch (json_dumps (knn_query self vector k)) k.

(** [result["results"].get("hits", {}).get("hits", [])], as the list the
    loop visits. *)
Definition raw_hit_list (result : value) : res (list value) :=
  match py_getitem_str result "results" with
  | Exn e => Exn e
  | Ok results =>
      match py_get results "hits" (VDict ∅) with
      | Exn e => Exn e
      | Ok hits_outer =>
          match py_get hits_outer "hits" (VList []) with
          | Exn e => Exn e
          | Ok hits => py_iter hits
          end
      end
  end.

Definition knn_success (items : list value) : value :=
  VDict {[ "status" := VStr "success";
           "results" := VList items;
           "total" := VInt (Z.of_nat (length items)) ]}.

Definition knn_error (e : exn) : value :=
  error_result ("kNN search error: " +:+ str_exn e).

(** The result of [knn_search], once the dimension check has passed, as a
    function of the index client's answer. *)
Definition knn_reply (self : EmbeddingTools) (o : outcome) : value :=
  match o with
  | Raises e => knn_error e
  | Returns result =>
      match py_getitem_str result "status" with
      | Exn e => knn_error e
      | Ok status =>
          if value_eq_str status "success" && has_key "results" result then
            match raw_hit_list result with
            | Exn e => knn_error e
            | Ok hits =>
                match simplify_hits self hits with
                | Exn e => knn_error e
                | Ok items => knn_success items
                end
            end
          else result
      end
  end.

(** The [_source] of a hit, with the default [{}] of [hit.get]. *)
Definition source_of (hit : dict) : option dict :=
  match hit !! "_source" with
  | None => Some ∅
  | Some (VDict source) => Some source
  | Some _ => None
  end.

(** A search result item: identifier, score, text and metadata. *)
Definition result_item (id score text : value) (metadata : dict) : value :=
  VDict {[ "id" := id; "score" := score; "text" := text;
           "metadata" := VDict metadata ]}.

(** The dimension check of [knn_search]. *)
Definition dimension_ok (self : EmbeddingTools) (vector : value) : bool :=
  match py_len vector with
  | Ok n => (n =? vector_dimension self)%nat
  | Exn _ => false
  end.

(** [item] is the search result item built from [hit]. *)
Definition item_of_hit (self : EmbeddingTools) (hit item : value) : Prop :=
  ∃ h source,
    hit = VDict h ∧ source_of h = Some source ∧
    item = result_item (default VNone (h !! "_id"))
                       (default VNone (h !! "_score"))
                       (default (VStr "") (source !! "text"))
                       (metadata_of self source).

(** The result [text_similarity_search] wraps around a successful search. *)
Definition similarity_success (text : string) (results total : value) : value :=
  VDict {[ "status" := VStr "success";
           "query_text" := VStr text;
           "results" := results;
           "total" := total ]}.

(** A query vector of the configured dimension. *)
Definition unit_vector : value := VList (replicate 1024 (VFloat 0)).

(** One stored document, as the index service returns it in a hit. *)
Definition sample_hit : value :=
  VDict {[ "_id" := VStr "doc-1";
           "_score" := VInt 1;
           "_source" := VDict {[ "text" := VStr "hello";
                                 "lang" := VStr "en";
                                 "dense_vector" := VList [VFloat 0] ]} ]}.

Definition search_reply (hits : list value) : value :=
  VDict {[ "status" := VStr "success";
           "results" := VDict {[ "hits" := VDict {[ "hits" := VList hits ]} ]} ]}.

Definition sample_item : value :=
  result_item (VStr "doc-1") (VInt 1) (VStr "hello") {[ "lang" := VStr "en" ]}.

(** A provider answer carrying one embedding. *)
Definition embedding_body (embedding : value) : value :=
  VDict {[ "data" := VList [VDict {[ "embedding" := embedding ]}] ]}.

Definition ack : value := VDict {[ "status" := VStr "success" ]}.

(** A world in which the provider embeds every text as [unit_vector] and
    the index holds [sample_hit]. *)
Definition respond_sample : list event → event → outcome :=
  respond_with (Returns (embedding_body unit_vector))
               (Returns (search_reply [sample_hit]))
               (Returns ack) (Returns ack).

(** The three results of [bulk_index_with_embeddings]. *)
Definition no_documents_error (failed_docs : list value) : value :=
  VDict {[ "status" := VStr "error";
           "message" := VStr "No documents were processed successfully";
           "failed_docs" := VList failed_docs ]}.

Definition bulk_success (response : value) (processed_docs : list dict)
    (failed_docs : list value) : value :=
  VDict {[ "status" := VStr "success";
           "response" := response;
           "processed_count" := VInt (Z.of_nat (length processed_docs));
           "failed_count" := VInt (Z.of_nat (length failed_docs));
           "failed_docs" := match failed_docs with
                            | [] => VNone
                            | _ :: _ => VList failed_docs
                            end ]}.

Definition bulk_error (e : exn) : value :=
  error_result ("Bulk indexing error: " +:+ str_exn e).

(** [entry] records the failure of [doc]. *)
Definition failure_of (doc : dict) (entry : value) : Prop :=
  ∃ reason, entry = failure doc reason.

(** [processed] is a copy of one of [documents] to which the embedding
    that [generate_embedding] returned for its text was attached, as
    returned. *)
Definition embedded_from (respond : list event → event → outcome)
    (self : EmbeddingTools) (text_field : string) (documents : list dict)
    (processed : dict) : Prop :=
  ∃ doc text embedding s s',
    doc ∈ documents ∧ doc !! text_field = Some text ∧
    generate_embedding respond self text None s
    = (Ok (embedding_success embedding (default_model self)), s') ∧
    processed = <[vector_field self := embedding]> doc.

(** [s'] is [s] after some POSTs to the provider and nothing else. *)
Definition only_posts (s s' : state) : Prop :=
  heap s' = heap s
  ∧ ∃ events : list event, log s' = log s ++ events ∧ Forall is_post events.

(** The object [metadata or {}] denotes: the caller's dictionary when it is
    given and not empty, a new one otherwise. *)
Definition keeps_metadata (metadata : option loc) (h : gmap loc dict) : bool :=
  match metadata with
  | Some l => negb (size (default ∅ (h !! l)) =? 0)%nat
  | None => false
  end.

Definition target_of (metadata : option loc) (h : gmap loc dict) : loc :=
  if keeps_metadata metadata h then default 1%positive metadata else fresh (dom h).

(** The contents of the document [index_text_with_embedding] hands to the
    index client. *)
Definition document_of (self : EmbeddingTools) (text : string) (embedding : value)
    (metadata : option loc) (h : gmap loc dict) : dict :=
  <[vector_field self := embedding]>
    (<["text" := VStr text]>
       (if keeps_metadata metadata h
        then default ∅ (h !! default 1%positive metadata) else ∅)).

(** The write [index_text_with_embedding] issues. *)
Definition write_event (document_id : option string) (document : dict) : event :=
  if truthy_str document_id then EvWrite (default "" document_id) document
  else EvIndex document.

(** A provider answer with a vector of two numbers. *)
Definition short_vector : value := VList [VFloat 0; VFloat 0].

Definition respond_short : list event → event → outcome :=
  respond_with (Returns (embedding_body short_vector)) down (Returns ack) down.

Definition short_document : dict :=
  {[ "text" := VStr "hello"; "dense_vector" := short_vector ]}.

(** A caller's metadata dictionary, stored at location 1. *)
Definition sample_metadata : dict := {[ "lang" := VStr "en" ]}.

Definition s_metadata : state := mkState {[ 1%positive := sample_metadata ]} [].

(** The two results of [get_document]. *)
Definition not_found (document_id : string) : value :=
  error_result ("Document with ID " +:+ document_id +:+ " not found").

Definition found (document : value) : value :=
  VDict {[ "status" := VStr "success"; "document" := document ]}.

(** The search [get_document] issues: a term query on [_id], size 1. *)
Definition id_search_event (json_dumps : value → string) (document_id : string)
    : event :=
  EvSearch (json_dumps (term_query document_id)) 1.

(** What [get_document] makes of the answer of the search. *)
Definition get_document_reply (document_id : string) (result : value) : res value :=
  match py_getitem_str result "status" with
  | Exn x => Exn x
  | Ok status =>
      if value_eq_str status "success" then
        match raw_hits result with
        | Exn x => Exn x
        | Ok hits =>
            match py_len hits with
            | Exn x => Exn x
            | Ok n =>
                if (0 <? n)%nat then
                  match py_getitem_0 hits with
                  | Exn x => Exn x
                  | Ok document => Ok (found document)
                  end
                else Ok (not_found document_id)
            end
        end
      else Ok (not_found document_id)
  end.

(** An index client whose search fails and says so in its result. *)
Definition search_failure : value := error_result "ConnectionTimeout".

Definition respond_search_fails : list event → event → outcome :=
  respond_with down (Returns search_failure) down down.

(** A structured result: a [status] that is [success], or [error] with a
    [message]. *)
Definition structured (r : value) : Prop :=
  status_of r = Some "success"
  ∨ (status_of r = Some "error" ∧ ∃ m, message_of r = Some m).

(** The methods of the index client wrapper, as opposed to the raw client
    [get_client()] returns. *)
Definition wrapper_call (e : event) : Prop :=
  match e with
  | EvSearch _ _ | EvWrite _ _ | EvIndex _ => True
  | _ => False
  end.

(** Modelled from the spec: the index client wrapper ([common/aos_client.py],
    not among the sources).  Section 4.2 of the specification gives its
    contract: every operation surfaces a structured status ([success], or
    [error] with a message) rather than throwing, and a successful search
    carries the raw hits (under [results], the key the callers read). *)
Definition client_contract (respond : list event → event → outcome) : Prop :=
  ∀ history e,
    wrapper_call e →
    ∃ v, respond history e = Returns v
         ∧ structured v
         ∧ (∀ query size, e = EvSearch query size →
              status_of v = Some "success" → is_Some (field_of v "results")).

(** An index client whose write raises. *)
Definition respond_write_raises : list event → event → outcome :=
  respond_with (Returns (embedding_body unit_vector)) down down down.

(** An index client whose search reports success without any results. *)
Definition respond_bare_success : list event → event → outcome :=
  respond_with (Returns (embedding_body unit_vector)) (Returns ack) down down.

(** The example of the specification: one document with the text field,
    one without. *)
Definition two_documents : list dict :=
  [ {[ "text" := VStr "a" ]}; {[ "foo" := VStr "b" ]} ].

(** * The rest of the tools *)

(** ** [DocumentTools.bulk_index_documents] *)

(** An element of [bulk_data]: an action header, built on the spot, or one
    of the caller's documents, held by reference. *)
Inductive bulk_item : Type :=
| Action (header : value)
| Document (doc : loc).

Section DocumentTools.

Variable respond : list event → event → outcome.

(** [self.aos_client._index_name] *)
Variable index_name : string.

(** [doc.pop(key)] on the object at [l]. *)
Definition pop (l : loc) (key : string) : M value :=
  λ s, let d := default ∅ (heap s !! l) in
       match d !! key with
       | Some v => (Ok v, mkState (<[l := delete key d]> (heap s)) (log s))
       | None => (Exn (KeyError (quoted key)), s)
       end.

(** The loop over the documents.  Unlike [bulk_index_with_embeddings] it
    works on the caller's documents themselves. *)
Fixpoint index_actions (generate_ids : bool) (documents : list loc)
    (bulk_data : list bulk_item) : M (list bulk_item) :=
  match documents with
  | [] => ret bulk_data
  | doc :: rest =>
      contents <- deref doc ;;
      if bool_decide (is_Some (contents !! "_id")) && negb generate_ids then
        doc_id <- pop doc "_id" ;;
        index_actions generate_ids rest
          (bulk_data ++
             [Action (VDict {[ "index" := VDict {[ "_index" := VStr index_name;
                                                   "_id" := doc_id ]} ]});
              Document doc])
      else
        index_actions generate_ids rest
          (bulk_data ++
             [Action (VDict {[ "index" := VDict {[ "_index" := VStr index_name ]} ]});
              Document doc])
  end.

(** What the client reads in [bulk_data] at the time of the call. *)
Definition item_value (h : gmap loc dict) (item : bulk_item) : value :=
  match item with
  | Action header => header
  | Document doc => VDict (default ∅ (h !! doc))
  end.

Definition read_items (bulk_data : list bulk_item) : M (list value) :=
  λ s, (Ok (item_value (heap s) <$> bulk_data), s).

Definition bulk_index_documents (documents : list loc) (generate_ids : bool)
    : M value :=
  try_except
    (client <- call respond EvGetClient ;;
     bulk_data <- index_actions generate_ids documents [] ;;
     body <- read_items bulk_data ;;
     response <- call respond (EvBulk body) ;;
     ret (VDict {[ "status" := VStr "success"; "response" := response ]}))
    (λ e, ret (error_result ("Bulk indexing error: " +:+ str_exn e))).

End DocumentTools.

(** ** Start-up: the token of the embedding service *)

(** [os.environ.get(key, default)] *)
Definition environ_get (environ : gmap string string) (key default : string)
    : string :=
  match environ !! key with
  | Some v => v
  | None => default
  end.

(** The tools [SearchMCPServer._register_tools] builds when the module is
    run: the token read from the environment goes through
    [SearchMCPServer.__init__] to [EmbeddingTools.__init__]. *)
Definition server_embedding_tools (environ : gmap string string)
    (index_name : string) : EmbeddingTools :=
  init index_name (Some (environ_get environ "EMBEDDING_API_TOKEN" "")).

(** ** Further notions used in the statements *)

(** A hit the loop of [knn_search] can reshape: a mapping whose [_source],
    when present, is a mapping. *)
Definition well_formed_hit (hit : value) : Prop :=
  ∃ h source, hit = VDict h ∧ source_of h = Some source.

(** The action header of a document in a bulk request. *)
Definition action_header (index_name : string) (doc_id : option value) : value :=
  VDict {[ "index" :=
             VDict (match doc_id with
                    | Some id => {[ "_index" := VStr index_name; "_id" := id ]}
                    | None => {[ "_index" := VStr index_name ]}
                    end) ]}.

(** The texts of the documents that have the text field, in order. *)
Definition texts_of (text_field : string) (documents : list dict) : list value :=
  omap (λ doc : dict, doc !! text_field) documents.

(** The reason recorded for a document when no token is configured. *)
Definition unconfigured_reason (text_field : string) (doc : dict) : value :=
  match doc !! text_field with
  | Some _ => VStr "API token not configured for embedding service"
  | None => VStr ("Missing text field '" +:+ text_field +:+ "'")
  end.

Definition document_success (response : value) : value :=
  VDict {[ "status" := VStr "success"; "response" := response ]}.

(** ** Further sample worlds *)

Definition respond_unauthorized : list event → event → outcome :=
  respond_with (Raises (RequestException "401 Client Error: Unauthorized"))
               down down down.

(** An index whose only hit has a [_source] that is not a mapping. *)
Definition broken_hit : value :=
  VDict {[ "_id" := VStr "doc-2"; "_source" := VStr "raw" ]}.

Definition respond_broken_hit : list event → event → outcome :=
  respond_with (Returns (embedding_body unit_vector))
               (Returns (search_reply [sample_hit; broken_hit]))
               (Returns ack) (Returns ack).

(** A successful search whose results carry no hits at all. *)
Definition respond_no_hits : list event → event → outcome :=
  respond_with (Returns (embedding_body unit_vector))
               (Returns (VDict {[ "status" := VStr "success";
                                  "results" := VDict ∅ ]}))
               (Returns ack) (Returns ack).

(** The POSTs the embedding loop of the bulk operation issues: one per
    document that has the text field, when a token is configured. *)
Definition posts_of (self : EmbeddingTools) (text_field : string)
    (documents : list dict) : list event :=
  if truthy_str (api_token self)
  then (λ text, post_event self text None) <$> texts_of text_field documents
  else [].

(** The calls on the index client that follow the embedding loop. *)
Definition writes_of (respond : list event → event → outcome)
    (self : EmbeddingTools) (history : list event) (processed_docs : list dict)
    : list event :=
  match processed_docs with
  | [] => []
  | _ :: _ =>
      EvGetClient ::
      match respond history EvGetClient with
      | Returns _ => [EvBulk (bulk_body self processed_docs)]
      | Raises _ => []
      end
  end.

(** [processed] is [doc] with some embedding attached. *)
Definition embedded_copy (self : EmbeddingTools) (doc processed : dict) : Prop :=
  ∃ embedding, processed = <[vector_field self := embedding]> doc.

(** The contents of the caller's metadata, [{}] when there is none. *)
Definition metadata_contents (metadata : option loc) (h : gmap loc dict) : dict :=
  match metadata with
  | Some l => default ∅ (h !! l)
  | None => ∅
  end.

(** What a tool returns for an outcome of the index client: the value, or
    the exception, which goes through. *)
Definition outcome_result (o : outcome) : res value :=
  match o with
  | Returns v => Ok v
  | Raises x => Exn x
  end.

(** The two ways of writing: under a given identifier when there is a
    non-empty one, with an identifier of the index service's otherwise. *)
Definition routed (document_id : option string) (document : dict) : event :=
  match document_id with
  | Some (String c id) => EvWrite (String c id) document
  | _ => EvIndex document
  end.

Definition s_empty_metadata : state := mkState {[ 1%positive := ∅ ]} [].

(** A caller's metadata that already has a [text] entry of its own. *)
Definition s_text_metadata : state :=
  mkState {[ 1%positive := {[ "text" := VStr "old"; "lang" := VStr "en" ]} ]} [].

(** The effect of one turn of the loop of [bulk_index_documents] on the
    store, when identifiers are not generated: the [_id] of the document,
    if it has one, is popped. *)
Definition strip_id (h : gmap loc dict) (doc : loc) : gmap loc dict :=
  match default ∅ (h !! doc) !! "_id" with
  | Some _ => <[doc := delete "_id" (default ∅ (h !! doc))]> h
  | None => h
  end.

Definition strip_ids (documents : list loc) (h : gmap loc dict) : gmap loc dict :=
  foldl strip_id h documents.

(** The items the loop appends, when identifiers are not generated. *)
Fixpoint actions_of (index_name : string) (documents : list loc)
    (h : gmap loc dict) : list bulk_item :=
  match documents with
  | [] => []
  | doc :: rest =>
      Action (action_header index_name (default ∅ (h !! doc) !! "_id"))
        :: Document doc :: actions_of index_name rest (strip_id h doc)
  end.

(** The items the loop appends when identifiers are generated. *)
Definition plain_actions (index_name : string) (documents : list loc)
    : list bulk_item :=
  documents ≫= λ doc, [Action (action_header index_name None); Document doc].

(** The contents of a document of the caller. *)
Definition contents_of (h : gmap loc dict) (doc : loc) : dict := default ∅ (h !! doc).

(** Two documents of a caller, the first with an identifier. *)
Definition s_documents : state :=
  mkState {[ 1%positive := {[ "_id" := VStr "a"; "title" := VStr "A" ]};
             2%positive := {[ "title" := VStr "B" ]} ]} [].

Definition respond_acks : list event → event → outcome :=
  respond_with down down down (Returns ack).

(** The documents that have the text field, each with [embedding] attached
    under the vector field. *)
Definition with_embedding (self : EmbeddingTools) (text_field : string)
    (embedding : value) (documents : list dict) : list dict :=
  (λ doc : dict, <[vector_field self := embedding]> doc)
    <$> filter (λ doc : dict, is_Some (doc !! text_field)) documents.

(** A provider that answers every POST with the same body. *)
Definition provider_answers (respond : list event → event → outcome)
    (body : value) : Prop :=
  ∀ history e, is_post e → respond history e = Returns body.

(** * Auxiliary results *)

Ltac unfold_monad :=
  unfold bind, ret, lift, try_except, raise, call in *; simpl in *.

(** ** [generate_embedding] *)

Lemma generate_embedding_unconfigured respond self text model s :
  truthy_str (api_token self) = false →
  generate_embedding respond self text model s
  = (Ok (error_result "API token not configured for embedding service"), s).
Proof.
  intros Htok. unfold generate_embedding. rewrite Htok. reflexivity.
Qed.

Lemma first_embedding_not_request body m :
  first_embedding body ≠ Exn (RequestException m).
Proof.
  unfold first_embedding, py_get, py_getitem_0.
  destruct body as [| | | | |l|d]; try discriminate.
  destruct (d !! "data") as [data|]; simpl.
  - destruct data as [| | | |str|[|x l]|d']; try discriminate.
    + destruct str; try discriminate.
    + destruct x as [| | | | | |f]; try discriminate.
      destruct (f !! "embedding"); discriminate.
  - rewrite lookup_empty. discriminate.
Qed.

Lemma generate_embedding_run respond self text model s :
  truthy_str (api_token self) = true →
  generate_embedding respond self text model s
  = (Ok (embedding_reply (model_name_of self model)
           (respond (log s) (post_event self text model))),
     add_event s (post_event self text model)).
Proof.
  intros Htok. unfold generate_embedding. rewrite Htok. simpl.
  unfold try_except, bind, call, lift, ret, embedding_reply, add_event.
  fold (model_name_of self model). fold (post_event self text model).
  destruct (respond (log s) (post_event self text model)) as [body|e].
  - pose proof (first_embedding_not_request body) as Hnr.
    unfold first_embedding in *.
    destruct (py_get body "data" (VList [VDict ∅])) as [data|e]; simpl.
    + destruct (py_getitem_0 data) as [first|e]; simpl.
      * destruct (py_get first "embedding" (VList [])) as [emb|e]; simpl; [done|].
        destruct e; try done. by destruct (Hnr msg).
      * destruct e; try done. by destruct (Hnr msg).
    + destruct e; try done. by destruct (Hnr msg).
  - by destruct e.
Qed.

(** [generate_embedding] never raises, touches no shared dictionary, and
    issues at most the one POST. *)
Lemma generate_embedding_total respond self text model s :
  ∃ r, generate_embedding respond self text model s
       = (Ok r, if truthy_str (api_token self)
                then add_event s (post_event self text model) else s)
       ∧ ((∃ m, r = error_result m)
          ∨ (∃ embedding, r = embedding_success embedding (model_name_of self model))).
Proof.
  destruct (truthy_str (api_token self)) eqn:Htok.
  - eexists. split; [by apply generate_embedding_run|].
    unfold embedding_reply.
    destruct (respond _ _) as [body|e].
    + destruct (first_embedding body); eauto.
    + destruct e; eauto.
  - eexists. split; [by apply generate_embedding_unconfigured|]. eauto.
Qed.

(** ** [knn_search] *)

Lemma knn_search_no_len json_dumps respond self vector k s e :
  py_len vector = Exn e →
  knn_search json_dumps respond self vector k s = (Ok (knn_error e), s).
Proof. intros Hlen. unfold knn_search. unfold_monad. by rewrite Hlen. Qed.

Lemma knn_search_reject json_dumps respond self vector k s n :
  py_len vector = Ok n →
  n ≠ vector_dimension self →
  knn_search json_dumps respond self vector k s
  = (Ok (error_result ("Vector dimension mismatch. Expected "
                       +:+ pretty (vector_dimension self)
                       +:+ ", got " +:+ pretty n)), s).
Proof.
  intros Hlen Hne. unfold knn_search. unfold_monad. rewrite Hlen.
  by destruct (Nat.eqb_spec n (vector_dimension self)).
Qed.

Lemma knn_search_run json_dumps respond self vector k s :
  py_len vector = Ok (vector_dimension self) →
  knn_search json_dumps respond self vector k s
  = (Ok (knn_reply self (respond (log s) (search_event json_dumps self vector k))),
     add_event s (search_event json_dumps self vector k)).
Proof.
  intros Hlen. unfold knn_search. unfold_monad. rewrite Hlen.
  rewrite Nat.eqb_refl. simpl.
  unfold knn_reply, add_event. fold (search_event json_dumps self vector k).
  destruct (respond (log s) _) as [result|e]; [|done].
  destruct (py_getitem_str result "status") as [status|e]; [|done].
  destruct (value_eq_str status "success" && has_key "results" result); [|done].
  unfold raw_hit_list.
  destruct (py_getitem_str result "results") as [results|e]; [|done].
  destruct (py_get results "hits" (VDict ∅)) as [ho|e]; [|done].
  destruct (py_get ho "hits" (VList [])) as [hits|e]; [|done].
  destruct (py_iter hits) as [hl|e]; [|done].
  by destruct (simplify_hits self hl).
Qed.

(** [knn_search] never raises; it either stops before any call or issues
    exactly its one search. *)
Lemma knn_search_total json_dumps respond self vector k s :
  ∃ r, knn_search json_dumps respond self vector k s
       = (Ok r, if dimension_ok self vector
                then add_event s (search_event json_dumps self vector k) else s).
Proof.
  unfold dimension_ok. destruct (py_len vector) as [n|e] eqn:Hn.
  - destruct (Nat.eqb_spec n (vector_dimension self)) as [->|Hne].
    + eexists. by apply knn_search_run.
    + eexists. by eapply knn_search_reject.
  - eexists. by eapply knn_search_no_len.
Qed.

(** ** Reading results *)

Lemma status_of_error m : status_of (error_result m) = Some "error".
Proof. reflexivity. Qed.

Lemma getitem_status_error m :
  py_getitem_str (error_result m) "status" = Ok (VStr "error").
Proof. reflexivity. Qed.

Lemma getitem_message_error m :
  py_getitem_str (error_result m) "message" = Ok (VStr m).
Proof. reflexivity. Qed.

Lemma getitem_status_embedding e mn :
  py_getitem_str (embedding_success e mn) "status" = Ok (VStr "success").
Proof. reflexivity. Qed.

Lemma getitem_embedding e mn :
  py_getitem_str (embedding_success e mn) "embedding" = Ok e.
Proof. reflexivity. Qed.

Lemma status_of_knn_success items : status_of (knn_success items) = Some "success".
Proof. reflexivity. Qed.

Lemma getitem_status_of r st :
  py_getitem_str r "status" = Ok st →
  status_of r = Some "success" ↔ value_eq_str st "success" = true.
Proof.
  unfold py_getitem_str, status_of. destruct r as [| | | | | |d]; try done.
  destruct (d !! "status") as [v|]; [|done]. intros [= ->].
  destruct st as [| | | |str| |]; simpl; try (split; done).
  rewrite bool_decide_eq_true. split; congruence.
Qed.

Lemma has_key_field key r : has_key key r = true ↔ is_Some (field_of r key).
Proof.
  unfold has_key, field_of. destruct r; try (split; [done|by intros [? ?]]).
  by rewrite bool_decide_eq_true.
Qed.

(** ** The reshaping of hits *)

Lemma metadata_of_lookup self (source : dict) key :
  metadata_of self source !! key
  = if decide (key = "text" ∨ key = vector_field self) then None else source !! key.
Proof.
  unfold metadata_of. case_decide as Hk.
  - apply map_lookup_filter_None. right. intros x _ [H1 H2]. simpl in *. tauto.
  - destruct (source !! key) as [x|] eqn:Hx.
    + apply map_lookup_filter_Some. split; [done|]. simpl. tauto.
    + apply map_lookup_filter_None. by left.
Qed.

Lemma simplify_hit_item self hit item :
  simplify_hit self hit = Ok item → item_of_hit self hit item.
Proof.
  unfold simplify_hit, item_of_hit, source_of.
  destruct hit as [| | | | | |h]; try done. unfold py_get at 1 2 3.
  destruct (h !! "_source") as [src|] eqn:Hsrc.
  - destruct (h !! "_id") eqn:Hid, (h !! "_score") eqn:Hscore.
    all: destruct src as [| | | | | |source]; try done.
    all: simpl; intros Hitem; exists h, source; rewrite Hsrc, Hid, Hscore.
    all: split; [done|]; split; [done|].
    all: destruct (source !! "text"); simpl in *; by injection Hitem as <-.
  - simpl. rewrite lookup_empty.
    destruct (h !! "_id") eqn:Hid, (h !! "_score") eqn:Hscore.
    all: simpl; intros Hitem; exists h, ∅; rewrite Hsrc, Hid, Hscore.
    all: split; [done|]; split; [done|].
    all: rewrite lookup_empty; simpl; by injection Hitem as <-.
Qed.

Lemma simplify_hits_items self hits items :
  simplify_hits self hits = Ok items → Forall2 (item_of_hit self) hits items.
Proof.
  revert items. induction hits as [|hit hits IH]; intros items; simpl.
  - intros [= <-]. constructor.
  - destruct (simplify_hit self hit) as [item|e] eqn:Hhit; [|done].
    destruct (simplify_hits self hits) as [items'|e]; [|done].
    intros [= <-]. constructor; [by apply simplify_hit_item|by apply IH].
Qed.

(** ** The answer of [knn_search] after the dimension check *)

Lemma knn_reply_success self o res :
  status_of (knn_reply self o) = Some "success" →
  field_of (knn_reply self o) "results" = Some res →
  ∃ reply hits items,
    o = Returns reply ∧ raw_hit_list reply = Ok hits ∧
    simplify_hits self hits = Ok items ∧
    knn_reply self o = knn_success items.
Proof.
  unfold knn_reply. destruct o as [result|e]; [|done].
  destruct (py_getitem_str result "status") as [status|e] eqn:Hst; [|done].
  destruct (value_eq_str status "success" && has_key "results" result) eqn:Hc.
  - destruct (raw_hit_list result) as [hits|e] eqn:Hh; [|done].
    destruct (simplify_hits self hits) as [items|e] eqn:Hs; [|done].
    intros _ _. by exists result, hits, items.
  - intros Hs Hr. apply (getitem_status_of _ _ Hst) in Hs.
    assert (has_key "results" result = true) by (apply has_key_field; eauto).
    rewrite Hs in Hc. simpl in Hc. congruence.
Qed.

Lemma knn_reply_has_status self o :
  ∃ st, py_getitem_str (knn_reply self o) "status" = Ok st.
Proof.
  unfold knn_reply. destruct o as [result|e]; [|by eexists].
  destruct (py_getitem_str result "status") as [status|e] eqn:Hst; [|by eexists].
  destruct (value_eq_str status "success" && has_key "results" result); [|by eexists].
  destruct (raw_hit_list result) as [hits|e]; [|by eexists].
  destruct (simplify_hits self hits) as [items|e]; by eexists.
Qed.

(** Whatever [knn_search] returns has a [status] entry. *)
Lemma knn_search_has_status json_dumps respond self vector k s r s' :
  knn_search json_dumps respond self vector k s = (Ok r, s') →
  ∃ st, py_getitem_str r "status" = Ok st.
Proof.
  destruct (py_len vector) as [n|e] eqn:Hn.
  - destruct (decide (n = vector_dimension self)) as [->|Hne].
    + rewrite knn_search_run by done. intros [= <- <-]. apply knn_reply_has_status.
    + erewrite knn_search_reject by done. intros [= <- <-]. by eexists.
  - erewrite knn_search_no_len by done. intros [= <- <-]. by eexists.
Qed.

(** ** [text_similarity_search], step by step *)

Lemma text_similarity_search_embedding_failed json_dumps respond self text k s m s1 :
  generate_embedding respond self (VStr text) None s = (Ok (error_result m), s1) →
  text_similarity_search json_dumps respond self text k s = (Ok (error_result m), s1).
Proof.
  intros Hge. unfold text_similarity_search, bind, lift, ret.
  by rewrite Hge, getitem_status_error.
Qed.

Lemma text_similarity_search_embedded json_dumps respond self text k s e mn s1 sr s2 :
  generate_embedding respond self (VStr text) None s
  = (Ok (embedding_success e mn), s1) →
  knn_search json_dumps respond self e k s1 = (Ok sr, s2) →
  text_similarity_search json_dumps respond self text k s
  = match py_getitem_str sr "status" with
    | Exn x => (Exn x, s2)
    | Ok st =>
        if value_eq_str st "success" then
          match py_getitem_str sr "results" with
          | Exn x => (Exn x, s2)
          | Ok results =>
              (Ok (similarity_success text results
                     (default (VInt 0) (field_of sr "total"))), s2)
          end
        else (Ok sr, s2)
    end.
Proof.
  intros Hge Hknn. unfold text_similarity_search, bind, lift, ret.
  rewrite Hge, getitem_status_embedding.
  change (value_eq_str (VStr "success") "success") with true. cbn [negb].
  rewrite getitem_embedding, Hknn.
  destruct (py_getitem_str sr "status") as [st|x] eqn:Hst; [|done].
  destruct (value_eq_str st "success"); [|done].
  destruct (py_getitem_str sr "results") as [results|x]; [|done].
  destruct sr as [| | | | | |d]; try done. simpl.
  by destruct (d !! "total").
Qed.

Lemma knn_search_success_shape json_dumps respond self vector k s r s' res :
  knn_search json_dumps respond self vector k s = (Ok r, s') →
  status_of r = Some "success" →
  field_of r "results" = Some res →
  ∃ reply hits items,
    respond (log s) (search_event json_dumps self vector k) = Returns reply ∧
    raw_hit_list reply = Ok hits ∧
    simplify_hits self hits = Ok items ∧
    r = knn_success items.
Proof.
  destruct (py_len vector) as [n|e] eqn:Hn.
  - destruct (decide (n = vector_dimension self)) as [->|Hne].
    + rewrite knn_search_run by done. intros [= <- <-] Hs Hr.
      destruct (knn_reply_success _ _ _ Hs Hr) as (reply & hits & items & ? & ? & ? & ?).
      by exists reply, hits, items.
    + erewrite knn_search_reject by done. by intros [= <- <-].
  - erewrite knn_search_no_len by done. by intros [= <- <-].
Qed.

Lemma getitem_field r key v :
  py_getitem_str r key = Ok v ↔ field_of r key = Some v.
Proof.
  unfold py_getitem_str, field_of. destruct r as [| | | | | |d]; try (split; done).
  destruct (d !! key); split; congruence.
Qed.

Lemma field_results_knn_success items :
  field_of (knn_success items) "results" = Some (VList items).
Proof. reflexivity. Qed.

Lemma field_total_knn_success items :
  field_of (knn_success items) "total" = Some (VInt (Z.of_nat (length items))).
Proof. reflexivity. Qed.

(** ** The embedding loop of the bulk operation *)

Lemma only_posts_refl s : only_posts s s.
Proof. split; [done|]. exists []. by rewrite app_nil_r. Qed.

Lemma only_posts_trans s1 s2 s3 :
  only_posts s1 s2 → only_posts s2 s3 → only_posts s1 s3.
Proof.
  intros [Hh1 (ev1 & Hl1 & Hp1)] [Hh2 (ev2 & Hl2 & Hp2)]. split; [congruence|].
  exists (ev1 ++ ev2). rewrite Hl2, Hl1, app_assoc. split; [done|].
  by apply Forall_app.
Qed.

Lemma only_posts_embedding self text model s :
  only_posts s (if truthy_str (api_token self)
                then add_event s (post_event self text model) else s).
Proof.
  destruct (truthy_str _); [|apply only_posts_refl].
  split; [done|]. exists [post_event self text model]. split; [done|].
  by repeat constructor.
Qed.

Lemma embedded_from_cons respond self text_field doc documents processed :
  embedded_from respond self text_field documents processed →
  embedded_from respond self text_field (doc :: documents) processed.
Proof.
  intros (d & t & e & s & s' & Hin & ? & ? & ?).
  exists d, t, e, s, s'. split; [apply elem_of_cons; by right|done].
Qed.

Lemma embed_documents_spec respond self text_field documents :
  ∀ processed_docs failed_docs s,
  ∃ processed failed s',
    embed_documents respond self text_field documents processed_docs failed_docs s
    = (Ok (processed_docs ++ processed, failed_docs ++ failed), s')
    ∧ length processed + length failed = length documents
    ∧ only_posts s s'
    ∧ (processed = [] → Forall2 failure_of documents failed)
    ∧ Forall (embedded_from respond self text_field documents) processed.
Proof.
  induction documents as [|doc documents IH]; intros processed_docs failed_docs s.
  - exists [], [], s. simpl. unfold ret. rewrite !app_nil_r.
    split; [done|]. split; [done|]. split; [apply only_posts_refl|].
    split; by constructor.
  - simpl. destruct (doc !! text_field) as [text|] eqn:Htext.
    + destruct (generate_embedding_total respond self text None s)
        as (er & Hge & [[m ->]|[e ->]]).
      * unfold bind at 1. rewrite Hge. unfold bind at 1, lift at 1.
        rewrite getitem_status_error.
        change (value_eq_str (VStr "error") "success") with false. cbn [negb].
        unfold bind at 1, lift at 1. rewrite getitem_message_error.
        destruct (IH processed_docs (failed_docs ++ [failure doc (VStr m)])
                    (if truthy_str (api_token self)
                     then add_event s (post_event self text None) else s))
          as (processed & failed & s' & Hrun & Hlen & Hposts & Hall & Hemb).
        exists processed, (failure doc (VStr m) :: failed), s'.
        rewrite Hrun, <- !app_assoc. simpl.
        split; [done|]. split; [|split; [|split]].
        -- lia.
        -- eapply only_posts_trans; [apply only_posts_embedding|done].
        -- intros Hnil. constructor; [by eexists|by apply Hall].
        -- eapply Forall_impl; [exact Hemb|]. intros ?. apply embedded_from_cons.
      * unfold bind at 1. rewrite Hge. unfold bind at 1, lift at 1.
        rewrite getitem_status_embedding.
        change (value_eq_str (VStr "success") "success") with true. cbn [negb].
        unfold bind at 1, lift at 1. rewrite getitem_embedding.
        destruct (IH (processed_docs ++ [<[vector_field self := e]> doc]) failed_docs
                    (if truthy_str (api_token self)
                     then add_event s (post_event self text None) else s))
          as (processed & failed & s' & Hrun & Hlen & Hposts & Hall & Hemb).
        exists (<[vector_field self := e]> doc :: processed), failed, s'.
        rewrite Hrun, <- !app_assoc. simpl.
        split; [done|]. split; [|split; [|split]].
        -- lia.
        -- eapply only_posts_trans; [apply only_posts_embedding|done].
        -- done.
        -- constructor.
           ++ exists doc, text, e, s. eexists. split; [apply elem_of_cons; by left|].
              split; [done|]. split; [exact Hge|done].
           ++ eapply Forall_impl; [exact Hemb|]. intros ?. apply embedded_from_cons.
    + destruct (IH processed_docs
                  (failed_docs ++
                     [failure doc (VStr ("Missing text field '" +:+ text_field +:+ "'"))]) s)
        as (processed & failed & s' & Hrun & Hlen & Hposts & Hall & Hemb).
      exists processed,
        (failure doc (VStr ("Missing text field '" +:+ text_field +:+ "'")) :: failed), s'.
      rewrite Hrun, <- !app_assoc. simpl.
        split; [done|]. split; [|split; [|split]].
      * lia.
      * done.
      * intros Hnil. constructor; [by eexists|by apply Hall].
      * eapply Forall_impl; [exact Hemb|]. intros ?. apply embedded_from_cons.
Qed.

(** ** [bulk_index_with_embeddings] after the embedding loop *)

Lemma bulk_index_none_processed respond self documents text_field s failed s1 :
  embed_documents respond self text_field documents [] [] s = (Ok ([], failed), s1) →
  bulk_index_with_embeddings respond self documents text_field s
  = (Ok (no_documents_error failed), s1).
Proof.
  intros Hloop. unfold bulk_index_with_embeddings, try_except, bind.
  by rewrite Hloop.
Qed.

Lemma bulk_index_some_processed respond self documents text_field s doc processed
    failed s1 :
  embed_documents respond self text_field documents [] [] s
  = (Ok (doc :: processed, failed), s1) →
  bulk_index_with_embeddings respond self documents text_field s
  = match respond (log s1) EvGetClient with
    | Raises e => (Ok (bulk_error e), add_event s1 EvGetClient)
    | Returns _ =>
        let s2 := add_event s1 EvGetClient in
        let body := EvBulk (bulk_body self (doc :: processed)) in
        match respond (log s2) body with
        | Raises e => (Ok (bulk_error e), add_event s2 body)
        | Returns response =>
            (Ok (bulk_success response (doc :: processed) failed), add_event s2 body)
        end
    end.
Proof.
  intros Hloop. unfold bulk_index_with_embeddings, try_except, bind.
  rewrite Hloop. cbn [fst snd]. unfold call, ret, add_event. cbn [heap log].
  destruct (respond (log s1) EvGetClient) as [client|e]; [|done].
  by destruct (respond _ (EvBulk _)).
Qed.

Lemma field_processed_count response processed failed :
  field_of (bulk_success response processed failed) "processed_count"
  = Some (VInt (Z.of_nat (length processed))).
Proof. reflexivity. Qed.

Lemma field_failed_count response processed failed :
  field_of (bulk_success response processed failed) "failed_count"
  = Some (VInt (Z.of_nat (length failed))).
Proof. reflexivity. Qed.

(** ** [index_text_with_embedding] *)

Lemma index_text_embedding_failed respond self text document_id metadata s m s1 :
  generate_embedding respond self (VStr text) None s = (Ok (error_result m), s1) →
  index_text_with_embedding respond self text document_id metadata s
  = (Ok (error_result m), s1).
Proof.
  intros Hge. unfold index_text_with_embedding, bind, lift, ret.
  by rewrite Hge, getitem_status_error.
Qed.

Lemma metadata_or_new_run metadata s :
  ∃ h, metadata_or_new metadata s = (Ok (target_of metadata (heap s)), mkState h (log s))
     ∧ h !! target_of metadata (heap s)
       = Some (if keeps_metadata metadata (heap s)
               then default ∅ (heap s !! default 1%positive metadata) else ∅)
     ∧ ∀ v, <[target_of metadata (heap s) := v]> h
            = <[target_of metadata (heap s) := v]> (heap s).
Proof.
  unfold metadata_or_new, target_of, keeps_metadata.
  destruct metadata as [l|]; simpl.
  - unfold bind, deref, new_dict, ret.
    destruct (heap s !! l) as [d|] eqn:Hd; simpl.
    + destruct (size d =? 0)%nat eqn:Hsize; simpl.
      * eexists. split; [done|]. split; [by rewrite lookup_insert_eq|].
        intros v. by rewrite insert_insert_eq.
      * exists (heap s). split; [by destruct s|]. simpl. rewrite Hd. by split.
    + rewrite map_size_empty. simpl.
      eexists. split; [done|]. split; [by rewrite lookup_insert_eq|].
      intros v. by rewrite insert_insert_eq.
  - unfold new_dict. eexists. split; [done|]. split; [by rewrite lookup_insert_eq|].
    intros v. by rewrite insert_insert_eq.
Qed.

Lemma index_text_embedded respond self text document_id metadata s e mn s1 :
  generate_embedding respond self (VStr text) None s
  = (Ok (embedding_success e mn), s1) →
  index_text_with_embedding respond self text document_id metadata s
  = let document := document_of self text e metadata (heap s1) in
    let s2 := mkState (<[target_of metadata (heap s1) := document]> (heap s1)) (log s1) in
    match respond (log s1) (write_event document_id document) with
    | Returns v => (Ok v, add_event s2 (write_event document_id document))
    | Raises x => (Exn x, add_event s2 (write_event document_id document))
    end.
Proof.
  intros Hge. unfold index_text_with_embedding. unfold bind at 1. rewrite Hge.
  unfold bind at 1, lift at 1. rewrite getitem_status_embedding.
  change (value_eq_str (VStr "success") "success") with true. cbn [negb].
  destruct (metadata_or_new_run metadata s1) as (h & Hnew & Hlook & Hins).
  unfold bind at 1. rewrite Hnew.
  unfold bind, setitem, lift, deref, ret. cbn [heap log].
  rewrite getitem_embedding. cbn [heap log].
  rewrite Hlook. cbn [default]. rewrite lookup_insert_eq. cbn [default].
  rewrite insert_insert_eq, lookup_insert_eq. cbn [default]. rewrite Hins.
  fold (document_of self text e metadata (heap s1)).
  unfold write_event, call, add_event. cbn [heap log].
  by destruct (truthy_str document_id).
Qed.

Lemma keeps_metadata_non_empty l (d : dict) (h : gmap loc dict) :
  h !! l = Some d → d ≠ ∅ → keeps_metadata (Some l) h = true.
Proof.
  intros Hl Hd. unfold keeps_metadata. rewrite Hl. simpl.
  apply map_size_non_empty_iff in Hd. by destruct (Nat.eqb_spec (size d) 0).
Qed.

(** ** [get_document] *)

Lemma get_document_run json_dumps respond document_id s :
  get_document json_dumps respond document_id s
  = (match respond (log s) (id_search_event json_dumps document_id) with
     | Raises x => Exn x
     | Returns result => get_document_reply document_id result
     end,
     add_event s (id_search_event json_dumps document_id)).
Proof.
  unfold get_document, bind, call, lift, ret, add_event, get_document_reply.
  fold (id_search_event json_dumps document_id).
  destruct (respond (log s) _) as [result|x]; [|done].
  destruct (py_getitem_str result "status") as [status|x]; [|done].
  destruct (value_eq_str status "success"); [|done].
  destruct (raw_hits result) as [hits|x]; [|done].
  destruct (py_len hits) as [n|x]; [|done].
  destruct (0 <? n)%nat; [|done].
  by destruct (py_getitem_0 hits).
Qed.

Lemma found_not_not_found document document_id :
  found document ≠ not_found document_id.
Proof. intros H. apply (f_equal status_of) in H. discriminate. Qed.

Lemma status_of_getitem r st :
  status_of r = Some st → py_getitem_str r "status" = Ok (VStr st).
Proof.
  unfold status_of, py_getitem_str. destruct r as [| | | | | |d]; try done.
  destruct (d !! "status") as [[| | | |str| |]|]; try done. by intros [= ->].
Qed.

(** ** Structured results *)

Lemma structured_error m : structured (error_result m).
Proof. right. split; [done|]. by exists m. Qed.

Lemma structured_embedding_success e mn : structured (embedding_success e mn).
Proof. by left. Qed.

Lemma structured_knn_success items : structured (knn_success items).
Proof. by left. Qed.

Lemma generate_embedding_structured respond self text model s :
  ∃ r s', generate_embedding respond self text model s = (Ok r, s') ∧ structured r.
Proof.
  destruct (generate_embedding_total respond self text model s)
    as (r & Hge & [[m ->]|[e ->]]); eexists _, _; (split; [exact Hge|]).
  - apply structured_error.
  - apply structured_embedding_success.
Qed.

Lemma bulk_index_structured respond self documents text_field s :
  ∃ r s', bulk_index_with_embeddings respond self documents text_field s = (Ok r, s')
          ∧ structured r.
Proof.
  destruct (embed_documents_spec respond self text_field documents [] [] s)
    as (processed & failed & s1 & Hloop & _).
  simpl in Hloop. destruct processed as [|doc processed].
  - eexists _, _. split; [by apply bulk_index_none_processed|].
    right. split; [done|]. by eexists.
  - rewrite (bulk_index_some_processed _ _ _ _ _ _ _ _ _ Hloop).
    destruct (respond (log s1) EvGetClient) as [client|e].
    + cbn zeta. destruct (respond _ (EvBulk _)) as [response|e];
        eexists _, _; (split; [done|]); [by left|apply structured_error].
    + eexists _, _. split; [done|]. apply structured_error.
Qed.

(** [knn_search] returns a structured result of its own, or the answer of
    the index client as it is. *)
Lemma knn_search_structured_or_reply json_dumps respond self vector k s :
  ∃ r s', knn_search json_dumps respond self vector k s = (Ok r, s')
          ∧ (structured r
             ∨ respond (log s) (search_event json_dumps self vector k) = Returns r).
Proof.
  destruct (py_len vector) as [n|e] eqn:Hn.
  - destruct (decide (n = vector_dimension self)) as [->|Hne].
    + eexists _, _. split; [by apply knn_search_run|].
      unfold knn_reply.
      destruct (respond (log s) _) as [result|e]; [|left; apply structured_error].
      destruct (py_getitem_str result "status") as [status|e];
        [|left; apply structured_error].
      destruct (value_eq_str status "success" && has_key "results" result);
        [|by right].
      destruct (raw_hit_list result) as [hits|e]; [|left; apply structured_error].
      destruct (simplify_hits self hits) as [items|e];
        left; [apply structured_knn_success|apply structured_error].
    + eexists _, _. split; [by eapply knn_search_reject|]. left. apply structured_error.
  - eexists _, _. split; [by eapply knn_search_no_len|]. left. apply structured_error.
Qed.

(** With an index client that keeps its contract, [knn_search] returns its
    own success result or an error result with a message. *)
Lemma knn_search_under_contract json_dumps respond self vector k s :
  client_contract respond →
  ∃ r s', knn_search json_dumps respond self vector k s = (Ok r, s')
          ∧ ((∃ items, r = knn_success items)
             ∨ (status_of r = Some "error" ∧ ∃ m, message_of r = Some m)).
Proof.
  intros Hc.
  destruct (py_len vector) as [n|e] eqn:Hn.
  - destruct (decide (n = vector_dimension self)) as [->|Hne].
    + eexists _, _. split; [by apply knn_search_run|].
      destruct (Hc (log s) (search_event json_dumps self vector k) I)
        as (v & -> & Hv & Hres).
      unfold knn_reply.
      destruct Hv as [Hs|[He Hm]].
      * rewrite (status_of_getitem _ _ Hs).
        change (value_eq_str (VStr "success") "success") with true.
        assert (has_key "results" v = true) as ->.
        { apply has_key_field. by eapply Hres. }
        cbn [andb].
        destruct (raw_hit_list v) as [hits|e];
          [|right; split; [done|by eexists]].
        destruct (simplify_hits self hits) as [items|e];
          [left; by eexists|right; split; [done|by eexists]].
      * rewrite (status_of_getitem _ _ He).
        change (value_eq_str (VStr "error") "success") with false. cbn [andb].
        by right.
    + eexists _, _. split; [by eapply knn_search_reject|].
      right. split; [done|by eexists].
  - eexists _, _. split; [by eapply knn_search_no_len|].
    right. split; [done|by eexists].
Qed.

(** The sample world keeps the contract of the index client. *)
Lemma respond_sample_contract : client_contract respond_sample.
Proof.
  intros history e He. destruct e as [| | | | |]; try done; simpl.
  - exists (search_reply [sample_hit]). split; [done|]. split; [by left|].
    intros _ _ _ _. by eexists.
  - exists ack. split; [done|]. split; [by left|]. intros; discriminate.
  - exists ack. split; [done|]. split; [by left|]. intros; discriminate.
Qed.

(** ** The examples of the specification *)

Example bulk_index_two_documents :
  ∃ response failure_entry,
    fst (bulk_index_with_embeddings respond_sample tools two_documents "text" s0)
    = Ok (bulk_success response [ <["dense_vector" := unit_vector]> {[ "text" := VStr "a" ]} ]
            [failure_entry])
    ∧ failure_entry
      = failure {[ "foo" := VStr "b" ]} (VStr "Missing text field 'text'").
Proof. eexists _, _. split; vm_compute; reflexivity. Qed.

Example knn_search_sample :
  fst (knn_search json_dumps0 respond_sample tools unit_vector 3 s0)
  = Ok (knn_success [sample_item]).
Proof. vm_compute. reflexivity. Qed.

(** ** One turn of the embedding loop, and the loop with a constant provider *)

(** A document whose text was embedded goes to the processed list with the
    embedding attached; the embedding itself is not looked at. *)
Lemma embed_documents_step respond self text_field doc rest processed_docs
    failed_docs s text e s1 :
  doc !! text_field = Some text →
  generate_embedding respond self text None s
  = (Ok (embedding_success e (default_model self)), s1) →
  embed_documents respond self text_field (doc :: rest) processed_docs failed_docs s
  = embed_documents respond self text_field rest
      (processed_docs ++ [<[vector_field self := e]> doc]) failed_docs s1.
Proof.
  intros Htext Hge. cbn [embed_documents]. rewrite Htext.
  unfold bind at 1. rewrite Hge. unfold bind at 1, lift at 1.
  rewrite getitem_status_embedding.
  change (value_eq_str (VStr "success") "success") with true. cbn [negb].
  unfold bind at 1, lift at 1. by rewrite getitem_embedding.
Qed.

Lemma embed_documents_constant_provider respond self text_field body e :
  truthy_str (api_token self) = true →
  provider_answers respond body →
  first_embedding body = Ok e →
  ∀ documents processed_docs failed_docs s,
  ∃ failed s1,
    embed_documents respond self text_field documents processed_docs failed_docs s
    = (Ok (processed_docs ++ with_embedding self text_field e documents, failed), s1).
Proof.
  intros Htok Hprov Hbody. unfold with_embedding.
  induction documents as [|doc documents IH]; intros processed_docs failed_docs s.
  - eexists _, _. simpl. unfold ret. by rewrite app_nil_r.
  - destruct (doc !! text_field) as [text|] eqn:Htext.
    + assert (generate_embedding respond self text None s
              = (Ok (embedding_success e (default_model self)),
                 add_event s (post_event self text None))) as Hge.
      { rewrite generate_embedding_run by done.
        rewrite (Hprov (log s) (post_event self text None) I).
        unfold embedding_reply. by rewrite Hbody. }
      rewrite (embed_documents_step _ _ _ _ _ _ _ _ _ _ _ Htext Hge).
      destruct (IH (processed_docs ++ [<[vector_field self := e]> doc]) failed_docs
                  (add_event s (post_event self text None)))
        as (failed & s1 & ->).
      eexists _, _. rewrite filter_cons_True by eauto.
      by rewrite fmap_cons, <- app_assoc.
    + cbn [embed_documents]. rewrite Htext.
      match goal with
      | |- context [embed_documents _ _ _ _ ?p ?f ?st] =>
          destruct (IH p f st) as (failed & s1 & ->)
      end.
      eexists _, _. rewrite filter_cons_False; [done|].
      rewrite Htext. by intros [? ?].
Qed.

(** The world of the short vector answers every request with that vector. *)
Lemma respond_short_answers :
  provider_answers respond_short (embedding_body short_vector).
Proof. intros history e He. by destruct e. Qed.

(** * The properties of the specification *)

(** ** Missing credential *)

(** C7: with no API token configured ([None] or the empty string),
    [generate_embedding] returns, for every text and model, the error
    result whose message says that the API token is not configured, and the
    state (hence the log of remote calls) is left as it was: no network
    call is issued. *)
Theorem generate_embedding_no_token respond self text model s :
  truthy_str (api_token self) = false →
  generate_embedding respond self text model s
  = (Ok (error_result "API token not configured for embedding service"), s).
Proof. apply generate_embedding_unconfigured. Qed.

Lemma generate_embedding_no_token_witness :
  generate_embedding respond_down tools_no_token (VStr "hello") None s0
  = (Ok (error_result "API token not configured for embedding service"), s0).
Proof.
  apply (generate_embedding_no_token respond_down tools_no_token). reflexivity.
Defined.

(** ** Dimension check of [knn_search] *)

(** C4: for every vector whose length differs from the configured
    dimension and every [k], [knn_search] returns the error result whose
    message names the expected and the actual dimension, and leaves the
    state as it was: no call reaches the index client. *)
Theorem knn_search_dimension_mismatch json_dumps respond self (v : list value) k s :
  length v ≠ vector_dimension self →
  knn_search json_dumps respond self (VList v) k s
  = (Ok (error_result ("Vector dimension mismatch. Expected "
                       +:+ pretty (vector_dimension self)
                       +:+ ", got " +:+ pretty (length v))), s).
Proof.
  intros Hlen. unfold knn_search. unfold_monad.
  destruct (Nat.eqb_spec (length v) (vector_dimension self)) as [Heq|_]; [done|].
  reflexivity.
Qed.

Lemma knn_search_dimension_mismatch_witness :
  knn_search json_dumps0 respond_down tools (VList [VFloat 0; VFloat 0]) 3 s0
  = (Ok (error_result "Vector dimension mismatch. Expected 1024, got 2"), s0).
Proof.
  apply (knn_search_dimension_mismatch json_dumps0 respond_down tools
           [VFloat 0; VFloat 0] 3 s0).
  vm_compute. lia.
Defined.

(** ** Provider responses *)

(** C3, as the code has it: with a token configured and a provider that
    answers with the JSON value [body], [generate_embedding] issues the one
    POST and returns
    - when [body] is a mapping without a [data] entry: a success result
      whose embedding is the empty list (the default [[{}]] of the first
      [get], then the default [[]] of the second);
    - when [data] is a list whose first entry is a mapping: a success
      result whose embedding is exactly the [embedding] entry of that first
      mapping, and the empty list when the entry is absent;
    - in every other case ([body] is not a mapping, [data] is empty, is not
      a list, or its first entry is not a mapping): an error result whose
      message starts with "Unexpected error: ". *)
Theorem generate_embedding_response respond self text model s body :
  truthy_str (api_token self) = true →
  respond (log s) (post_event self text model) = Returns body →
  ∃ r, generate_embedding respond self text model s
       = (Ok r, add_event s (post_event self text model))
     ∧ match body with
       | VDict d =>
           match d !! "data" with
           | None => r = embedding_success (VList []) (model_name_of self model)
           | Some (VList (VDict first :: _)) =>
               r = embedding_success (default (VList []) (first !! "embedding"))
                     (model_name_of self model)
           | Some _ => ∃ m, r = error_result ("Unexpected error: " +:+ m)
           end
       | _ => ∃ m, r = error_result ("Unexpected error: " +:+ m)
       end.
Proof.
  intros Htok Hbody. eexists. split; [by apply generate_embedding_run|].
  rewrite Hbody. unfold embedding_reply, first_embedding, py_get, py_getitem_0.
  destruct body as [| | | | |l|d]; simpl; eauto.
  destruct (d !! "data") as [data|]; simpl.
  - destruct data as [| | | |str|[|x l]|d']; simpl; eauto.
    + destruct str; simpl; eauto.
    + destruct x as [| | | | | |f]; simpl; eauto.
      by destruct (f !! "embedding").
  - by rewrite lookup_empty.
Qed.

Lemma generate_embedding_response_witness :
  ∃ r, generate_embedding (respond_with (Returns body_without_embedding) down down down)
         tools (VStr "hello") None s0
       = (Ok r, add_event s0 (post_event tools (VStr "hello") None))
     ∧ r = embedding_success (VList []) "Pro/BAAI/bge-m3".
Proof.
  exact (generate_embedding_response
           (respond_with (Returns body_without_embedding) down down down)
           tools (VStr "hello") None s0 body_without_embedding
           eq_refl eq_refl).
Defined.

(** C3, as stated, fails: a provider response without any [data] entry is
    answered by a success result (with an empty embedding), not by an
    error. *)
Lemma generate_embedding_missing_data_succeeds :
  field_of body_without_data "data" = None
  ∧ generate_embedding (respond_with (Returns body_without_data) down down down)
      tools (VStr "hello") None s0
    = (Ok (embedding_success (VList []) "Pro/BAAI/bge-m3"),
       add_event s0 (post_event tools (VStr "hello") None)).
Proof. split; vm_compute; reflexivity. Qed.

(** ** Search results *)

(** C5: whenever [knn_search] returns a success result with a results
    list, that list is the reshaping, hit by hit, of the hits the index
    client answered: each item has [id], [score], [text] and a [metadata]
    mapping; the total is the length of the list; and the metadata of an
    item is the source of its hit without the text field and without the
    reserved vector field, so it never holds the raw vector.  A successful
    [text_similarity_search] returns such a list and its length too. *)
Theorem knn_search_result_items json_dumps respond self :
  (∀ vector k s r s' res,
     knn_search json_dumps respond self vector k s = (Ok r, s') →
     status_of r = Some "success" →
     field_of r "results" = Some res →
     ∃ reply hits items,
       respond (log s) (search_event json_dumps self vector k) = Returns reply ∧
       raw_hit_list reply = Ok hits ∧
       res = VList items ∧
       field_of r "total" = Some (VInt (Z.of_nat (length items))) ∧
       Forall2 (item_of_hit self) hits items)
  ∧ (∀ text k s r s',
       text_similarity_search json_dumps respond self text k s = (Ok r, s') →
       status_of r = Some "success" →
       ∃ hits items,
         field_of r "results" = Some (VList items) ∧
         field_of r "total" = Some (VInt (Z.of_nat (length items))) ∧
         Forall2 (item_of_hit self) hits items)
  ∧ (∀ (source : dict) key,
       metadata_of self source !! key
       = if decide (key = "text" ∨ key = vector_field self)
         then None else source !! key).
Proof.
  split; [|split].
  - intros vector k s r s' res Hrun Hs Hr.
    destruct (knn_search_success_shape _ _ _ _ _ _ _ _ _ Hrun Hs Hr)
      as (reply & hits & items & Hreply & Hhits & Hitems & ->).
    rewrite field_results_knn_success in Hr. injection Hr as <-.
    exists reply, hits, items.
    split; [done|]. split; [done|]. split; [done|].
    split; [apply field_total_knn_success|by apply simplify_hits_items].
  - intros text k s r s' Hrun Hs.
    destruct (generate_embedding_total respond self (VStr text) None s)
      as (er & Hge & [[m ->]|[e ->]]).
    + erewrite text_similarity_search_embedding_failed in Hrun by done.
      injection Hrun as <- <-. done.
    + destruct (knn_search_total json_dumps respond self e k
                  (if truthy_str (api_token self)
                   then add_event s (post_event self (VStr text) None) else s))
        as [sr Hknn].
      rewrite (text_similarity_search_embedded _ _ _ _ _ _ _ _ _ _ _ Hge Hknn) in Hrun.
      destruct (knn_search_has_status _ _ _ _ _ _ _ _ Hknn) as [st Hst].
      rewrite Hst in Hrun.
      destruct (value_eq_str st "success") eqn:Hsucc.
      * destruct (py_getitem_str sr "results") as [results|x] eqn:Hres; [|done].
        injection Hrun as <- <-.
        apply getitem_field in Hres.
        apply (getitem_status_of _ _ Hst) in Hsucc.
        destruct (knn_search_success_shape _ _ _ _ _ _ _ _ _ Hknn Hsucc Hres)
          as (reply & hits & items & Hreply & Hhits & Hitems & ->).
        rewrite field_results_knn_success in Hres. injection Hres as <-.
        exists hits, items.
        split; [done|]. split; [done|]. by apply simplify_hits_items.
      * injection Hrun as <- <-.
        apply (getitem_status_of _ _ Hst) in Hs. congruence.
  - intros source key. apply metadata_of_lookup.
Qed.

Lemma knn_search_result_items_witness :
  ∃ reply hits items,
    respond_sample [] (search_event json_dumps0 tools unit_vector 3) = Returns reply ∧
    raw_hit_list reply = Ok hits ∧
    VList [sample_item] = VList items ∧
    field_of (knn_success [sample_item]) "total"
    = Some (VInt (Z.of_nat (length items))) ∧
    Forall2 (item_of_hit tools) hits items.
Proof.
  apply (proj1 (knn_search_result_items json_dumps0 respond_sample tools)
           unit_vector 3%Z s0 (knn_success [sample_item])
           (add_event s0 (search_event json_dumps0 tools unit_vector 3))).
  - vm_compute. reflexivity.
  - reflexivity.
  - reflexivity.
Defined.

(** ** Composition of embedding and search *)

(** C6: [text_similarity_search] first embeds the text, which issues at
    most the POST to the provider.  When the embedding result is not a
    success, that result is returned as it is and the state is the one the
    embedding left: no search was issued.  Otherwise [knn_search] runs on
    the embedding; when its result is not a success, that result is
    returned as it is; when it is a success with a results list, the tool
    returns the success result made of the query text, that same results
    list and the total of the search result. *)
Theorem text_similarity_search_steps json_dumps respond self text k s :
  ∃ er s1,
    generate_embedding respond self (VStr text) None s = (Ok er, s1)
    ∧ (s1 = s ∨ s1 = add_event s (post_event self (VStr text) None))
    ∧ (status_of er ≠ Some "success" →
       text_similarity_search json_dumps respond self text k s = (Ok er, s1))
    ∧ (status_of er = Some "success" →
       ∃ e sr s2,
         field_of er "embedding" = Some e
         ∧ knn_search json_dumps respond self e k s1 = (Ok sr, s2)
         ∧ (status_of sr ≠ Some "success" →
            text_similarity_search json_dumps respond self text k s = (Ok sr, s2))
         ∧ (∀ results,
              status_of sr = Some "success" →
              field_of sr "results" = Some results →
              text_similarity_search json_dumps respond self text k s
              = (Ok (similarity_success text results
                       (default (VInt 0) (field_of sr "total"))), s2))).
Proof.
  destruct (generate_embedding_total respond self (VStr text) None s)
    as (er & Hge & Her).
  eexists er, _. split; [exact Hge|]. split; [destruct (truthy_str _); auto|].
  destruct Her as [[m ->]|[e ->]].
  - split; [|done]. intros _. by apply text_similarity_search_embedding_failed.
  - split; [done|]. intros _.
    destruct (knn_search_total json_dumps respond self e k
                (if truthy_str (api_token self)
                 then add_event s (post_event self (VStr text) None) else s))
      as [sr Hknn].
    eexists e, sr, _. split; [done|]. split; [exact Hknn|].
    pose proof (text_similarity_search_embedded _ _ _ _ _ _ _ _ _ _ _ Hge Hknn) as Hrun.
    destruct (knn_search_has_status _ _ _ _ _ _ _ _ Hknn) as [st Hst].
    rewrite Hst in Hrun. pose proof (getitem_status_of _ _ Hst) as Hiff.
    split.
    + intros Hns. destruct (value_eq_str st "success"); [|done].
      destruct Hns. by apply Hiff.
    + intros results Hs Hres. apply Hiff in Hs. rewrite Hs in Hrun.
      apply getitem_field in Hres. by rewrite Hres in Hrun.
Qed.

(** ** Bulk indexing *)

(** C1: for every list of documents and every text field name, the
    embedding loop of [bulk_index_with_embeddings] sorts each document
    either into the processed or into the failed list, so the two lengths
    add up to the number of documents, and the operation returns a result
    (it never raises).  A success result carries exactly these two lengths
    as [processed_count] and [failed_count]; whenever a result carries both
    counts they add up to the number of documents.  When no document was
    processed, the result is the error result carrying the whole failure
    list, one (document, reason) entry per input document and in their
    order, and nothing but POSTs to the embedding provider was issued: no
    call reached the index client.  When some document was processed, the
    result is the success result, or the error result of the handler when
    the client raised. *)
Theorem bulk_index_with_embeddings_counts respond self documents text_field s :
  ∃ processed failed s1 r s2,
    embed_documents respond self text_field documents [] [] s
    = (Ok (processed, failed), s1)
    ∧ bulk_index_with_embeddings respond self documents text_field s = (Ok r, s2)
    ∧ length processed + length failed = length documents
    ∧ (status_of r = Some "success" →
       field_of r "processed_count" = Some (VInt (Z.of_nat (length processed)))
       ∧ field_of r "failed_count" = Some (VInt (Z.of_nat (length failed))))
    ∧ (∀ pc fc,
         field_of r "processed_count" = Some (VInt pc) →
         field_of r "failed_count" = Some (VInt fc) →
         (pc + fc)%Z = Z.of_nat (length documents))
    ∧ (processed = [] →
       r = no_documents_error failed
       ∧ status_of r = Some "error"
       ∧ field_of r "failed_docs" = Some (VList failed)
       ∧ Forall2 failure_of documents failed
       ∧ s2 = s1 ∧ only_posts s s2)
    ∧ (processed ≠ [] →
       (∃ response, r = bulk_success response processed failed)
       ∨ (∃ e, r = bulk_error e)).
Proof.
  destruct (embed_documents_spec respond self text_field documents [] [] s)
    as (processed & failed & s1 & Hloop & Hlen & Hposts & Hall & _).
  simpl in Hloop.
  destruct processed as [|doc processed].
  - exists [], failed, s1, (no_documents_error failed), s1.
    split; [done|]. split; [by apply bulk_index_none_processed|].
    split; [done|]. split; [done|]. split; [done|].
    split; [|done]. intros _. repeat (split; [done|]). split; [by apply Hall|done].
  - pose proof (bulk_index_some_processed _ _ _ _ _ _ _ _ _ Hloop) as Hrun.
    assert (∀ response pc fc,
              field_of (bulk_success response (doc :: processed) failed)
                "processed_count" = Some (VInt pc) →
              field_of (bulk_success response (doc :: processed) failed)
                "failed_count" = Some (VInt fc) →
              (pc + fc)%Z = Z.of_nat (length documents)) as Hsum.
    { intros response pc fc.
      rewrite field_processed_count, field_failed_count.
      intros H1 H2. rewrite <- Hlen, Nat2Z.inj_add. congruence. }
    destruct (respond (log s1) EvGetClient) as [client|e].
    + cbn zeta in Hrun.
      destruct (respond (log (add_event s1 EvGetClient)) _) as [response|e].
      * eexists (doc :: processed), failed, s1, _, _.
        split; [done|]. split; [exact Hrun|]. split; [done|].
        split; [intros _; split; [apply field_processed_count|apply field_failed_count]|].
        split; [apply Hsum|]. split; [done|]. intros _. eauto.
      * eexists (doc :: processed), failed, s1, _, _.
        split; [done|]. split; [exact Hrun|]. split; [done|].
        split; [done|]. split; [done|]. split; [done|]. intros _. eauto.
    + eexists (doc :: processed), failed, s1, _, _.
      split; [done|]. split; [exact Hrun|]. split; [done|].
      split; [done|]. split; [done|]. split; [done|]. intros _. eauto.
Qed.

(** ** Dimension of the vectors *)

(** C2, as the code has it.  A vector reaches a kNN query only through
    [knn_search], which issues its search exactly when the length of the
    vector is the configured dimension and otherwise returns an error
    before any call to the index client.  The indexing operations make no
    such check.  [index_text_with_embedding] hands to the index client a
    document whose vector field is the embedding [generate_embedding]
    returned, whatever its length.  In the loop of
    [bulk_index_with_embeddings], a document whose text was embedded goes
    to the processed list with the returned embedding attached, whatever
    that embedding is; so with a provider that answers every request with
    the embedding [e], of any length, every document that has the text
    field is processed with [e] attached, and these documents are what the
    bulk call receives.  The dimension configured by [init] is 1024. *)
Theorem vector_dimension_checked_by_knn_search_only json_dumps respond self :
  (∀ vector k s r s',
     knn_search json_dumps respond self vector k s = (Ok r, s') →
     (py_len vector = Ok (vector_dimension self)
      ∧ s' = add_event s (search_event json_dumps self vector k))
     ∨ (py_len vector ≠ Ok (vector_dimension self)
        ∧ s' = s ∧ status_of r = Some "error"))
  ∧ (∀ text document_id metadata s e s1,
       generate_embedding respond self (VStr text) None s
       = (Ok (embedding_success e (default_model self)), s1) →
       ∃ document out s2,
         index_text_with_embedding respond self text document_id metadata s
         = (out, s2)
         ∧ log s2 = log s1 ++ [write_event document_id document]
         ∧ document !! vector_field self = Some e)
  ∧ (∀ documents text_field s processed failed s1,
       embed_documents respond self text_field documents [] [] s
       = (Ok (processed, failed), s1) →
       Forall (embedded_from respond self text_field documents) processed)
  ∧ (∀ text_field doc rest processed_docs failed_docs s text e s1,
       doc !! text_field = Some text →
       generate_embedding respond self text None s
       = (Ok (embedding_success e (default_model self)), s1) →
       embed_documents respond self text_field (doc :: rest)
         processed_docs failed_docs s
       = embed_documents respond self text_field rest
           (processed_docs ++ [<[vector_field self := e]> doc]) failed_docs s1)
  ∧ (∀ body e documents text_field s,
       truthy_str (api_token self) = true →
       provider_answers respond body →
       first_embedding body = Ok e →
       ∃ failed s1 r s2,
         embed_documents respond self text_field documents [] [] s
         = (Ok (with_embedding self text_field e documents, failed), s1)
         ∧ bulk_index_with_embeddings respond self documents text_field s
           = (Ok r, s2)
         ∧ (∀ client,
              with_embedding self text_field e documents ≠ [] →
              respond (log s1) EvGetClient = Returns client →
              log s2 = log s1 ++ [EvGetClient;
                                  EvBulk (bulk_body self
                                            (with_embedding self text_field e
                                               documents))]))
  ∧ (∀ index token, vector_dimension (init index token) = 1024).
Proof.
  split; [|split; [|split; [|split; [|split]]]].
  - intros vector k s r s' Hrun.
    destruct (py_len vector) as [n|e] eqn:Hn.
    + destruct (decide (n = vector_dimension self)) as [->|Hne].
      * left. rewrite knn_search_run in Hrun by done. by injection Hrun as <- <-.
      * right. erewrite knn_search_reject in Hrun by done.
        injection Hrun as <- <-. split; [congruence|done].
    + right. erewrite knn_search_no_len in Hrun by done.
      injection Hrun as <- <-. done.
  - intros text document_id metadata s e s1 Hge.
    pose proof (index_text_embedded _ _ _ document_id metadata _ _ _ _ Hge) as Hrun.
    cbn zeta in Hrun.
    exists (document_of self text e metadata (heap s1)).
    destruct (respond (log s1) _) as [v|x]; eexists _, _;
      (split; [exact Hrun|]); (split; [done|]);
      unfold document_of; apply lookup_insert_eq.
  - intros documents text_field s processed failed s1 Hloop.
    destruct (embed_documents_spec respond self text_field documents [] [] s)
      as (processed' & failed' & s1' & Hloop' & _ & _ & _ & Hemb).
    simpl in Hloop'. rewrite Hloop in Hloop'. by injection Hloop' as -> -> ->.
  - intros text_field doc rest processed_docs failed_docs s text e s1.
    apply embed_documents_step.
  - intros body e documents text_field s Htok Hprov Hbody.
    destruct (embed_documents_constant_provider respond self text_field body e
                Htok Hprov Hbody documents [] [] s) as (failed & s1 & Hloop).
    simpl in Hloop. exists failed, s1.
    destruct (with_embedding self text_field e documents) as [|doc processed]
      eqn:Hproc.
    + eexists _, _. split; [exact Hloop|].
      split; [by eapply bulk_index_none_processed|]. by intros client Hne.
    + pose proof (bulk_index_some_processed _ _ _ _ _ _ _ _ _ Hloop) as Hrun.
      destruct (respond (log s1) EvGetClient) as [client|x] eqn:Hclient.
      * cbn zeta in Hrun.
        destruct (respond (log (add_event s1 EvGetClient)) _) as [response|x];
          eexists _, _; (split; [exact Hloop|]); (split; [exact Hrun|]);
          intros c _ _; simpl; by rewrite <- app_assoc.
      * eexists _, _. split; [exact Hloop|]. split; [exact Hrun|].
        by intros c _ [=].
  - done.
Qed.

Lemma vector_dimension_checked_by_knn_search_only_witness :
  ∃ failed s1 r s2,
    embed_documents respond_short tools "text" two_documents [] [] s0
    = (Ok (with_embedding tools "text" short_vector two_documents, failed), s1)
    ∧ bulk_index_with_embeddings respond_short tools two_documents "text" s0
      = (Ok r, s2)
    ∧ (∀ client,
         with_embedding tools "text" short_vector two_documents ≠ [] →
         respond_short (log s1) EvGetClient = Returns client →
         log s2 = log s1 ++ [EvGetClient;
                             EvBulk (bulk_body tools
                                       (with_embedding tools "text" short_vector
                                          two_documents))]).
Proof.
  apply (proj1 (proj2 (proj2 (proj2 (proj2
           (vector_dimension_checked_by_knn_search_only json_dumps0
              respond_short tools)))))
           (embedding_body short_vector) short_vector two_documents "text" s0);
    [reflexivity | apply respond_short_answers | reflexivity].
Defined.

(** The same on a run: with the provider that answers with a vector of two
    numbers, the bulk call receives the document with that vector. *)
Example bulk_index_stores_short_vector :
  log (snd (bulk_index_with_embeddings respond_short tools two_documents "text" s0))
  = [post_event tools (VStr "a") None;
     EvGetClient;
     EvBulk [action_header "kb" None;
             VDict {[ "text" := VStr "a"; "dense_vector" := short_vector ]}]].
Proof. vm_compute. reflexivity. Qed.

(** C2, as stated, fails: a provider that answers with a vector of two
    numbers makes [index_text_with_embedding] hand a document with that
    vector to the index client; nothing is rejected, although the
    configured dimension is 1024. *)
Lemma index_text_stores_short_vector :
  py_len short_vector = Ok 2
  ∧ vector_dimension tools = 1024
  ∧ fst (index_text_with_embedding respond_short tools "hello" None None s0) = Ok ack
  ∧ log (snd (index_text_with_embedding respond_short tools "hello" None None s0))
    = [post_event tools (VStr "hello") None; EvIndex short_document]
  ∧ short_document !! vector_field tools = Some short_vector.
Proof. repeat split; vm_compute; reflexivity. Qed.

(** ** The caller's metadata dictionary *)

(** C10: let [index_text_with_embedding] be called with the metadata
    dictionary stored at [l], of contents [d], not empty.  Whatever
    happens, every key of that dictionary other than [text] and the vector
    field keeps its value.  When the embedding succeeds with [e], the
    dictionary at [l] itself becomes [d] with [text] and the vector field
    set, no other dictionary is created, and these same contents are what
    the index client receives: the code works on the caller's object, not
    on a copy.  When the embedding fails the store is left as it was. *)
Theorem index_text_mutates_metadata respond self text document_id l (d : dict) s :
  heap s !! l = Some d →
  d ≠ ∅ →
  ∃ er s1 out s2,
    generate_embedding respond self (VStr text) None s = (Ok er, s1)
    ∧ index_text_with_embedding respond self text document_id (Some l) s = (out, s2)
    ∧ (∀ key, key ≠ "text" → key ≠ vector_field self →
         ∃ d' : dict, heap s2 !! l = Some d' ∧ d' !! key = d !! key)
    ∧ (∀ e, er = embedding_success e (default_model self) →
         heap s2 = <[l := <[vector_field self := e]> (<["text" := VStr text]> d)]> (heap s)
         ∧ dom (heap s2) = dom (heap s)
         ∧ log s2 = log s1 ++ [write_event document_id
                                 (<[vector_field self := e]> (<["text" := VStr text]> d))])
    ∧ (status_of er ≠ Some "success" → heap s2 = heap s).
Proof.
  intros Hl Hd.
  destruct (generate_embedding_total respond self (VStr text) None s)
    as (er & Hge & Her).
  assert (heap (if truthy_str (api_token self)
                then add_event s (post_event self (VStr text) None) else s) = heap s)
    as Hheap by (by destruct (truthy_str _)).
  destruct Her as [[m ->]|[e ->]].
  - eexists _, _, _, _. split; [exact Hge|].
    split; [by eapply index_text_embedding_failed|].
    rewrite Hheap. split; [|split; [done|done]].
    intros key _ _. by exists d.
  - pose proof (index_text_embedded _ _ _ document_id (Some l) _ _ _ _ Hge) as Hrun.
    cbn zeta in Hrun. rewrite Hheap in Hrun.
    unfold document_of, target_of in Hrun.
    rewrite (keeps_metadata_non_empty _ _ _ Hl Hd) in Hrun. simpl in Hrun.
    rewrite Hl in Hrun. simpl in Hrun.
    assert (∀ r : res value * state, ∃ out s2, r = (out, s2)) as Hpair
      by (intros [out s2]; eauto).
    destruct (Hpair (index_text_with_embedding respond self text document_id (Some l) s))
      as (out & s2 & Hout).
    eexists (embedding_success e (model_name_of self None)), _, out, s2.
    split; [exact Hge|]. split; [exact Hout|].
    rewrite Hout in Hrun.
    assert (heap s2 = <[l := <[vector_field self := e]> (<["text" := VStr text]> d)]>
                        (heap s)
            ∧ log s2 = log (if truthy_str (api_token self)
                            then add_event s (post_event self (VStr text) None) else s)
                       ++ [write_event document_id
                             (<[vector_field self := e]> (<["text" := VStr text]> d))])
      as [Hh2 Hl2].
    { destruct (respond _ _); by injection Hrun as -> ->. }
    split; [|split; [|done]].
    + intros key Hk1 Hk2. eexists. rewrite Hh2, lookup_insert_eq. split; [done|].
      by rewrite !lookup_insert_ne.
    + intros e' He'. apply (f_equal (λ r, field_of r "embedding")) in He'.
      change (Some e = Some e') in He'. injection He' as <-.
      split; [done|]. split; [|done].
      rewrite Hh2. apply dom_insert_lookup_L. eauto.
Qed.

Lemma index_text_mutates_metadata_witness :
  ∃ er s1 out s2,
    generate_embedding respond_short tools (VStr "hello") None s_metadata = (Ok er, s1)
    ∧ index_text_with_embedding respond_short tools "hello" (Some "doc-1")
        (Some 1%positive) s_metadata = (out, s2)
    ∧ (∀ key, key ≠ "text" → key ≠ vector_field tools →
         ∃ d' : dict, heap s2 !! 1%positive = Some d'
                      ∧ d' !! key = sample_metadata !! key)
    ∧ (∀ e, er = embedding_success e (default_model tools) →
         heap s2 = <[1%positive := <[vector_field tools := e]>
                                     (<["text" := VStr "hello"]> sample_metadata)]>
                     (heap s_metadata)
         ∧ dom (heap s2) = dom (heap s_metadata)
         ∧ log s2 = log s1 ++ [write_event (Some "doc-1")
                                 (<[vector_field tools := e]>
                                    (<["text" := VStr "hello"]> sample_metadata))])
    ∧ (status_of er ≠ Some "success" → heap s2 = heap s_metadata).
Proof.
  apply (index_text_mutates_metadata respond_short tools "hello" (Some "doc-1")
           1%positive sample_metadata s_metadata).
  - reflexivity.
  - vm_compute. discriminate.
Defined.

(** ** Lookup by identifier *)

(** C8, as the code has it: [get_document] issues exactly one call, the
    search with the term query on [_id] and size 1.  When that search
    returns [result], the tool returns the "not found" error exactly when
    [result] has a status that is not success, or is a success whose hits
    have length zero; and when [result] is a success whose hits are a list
    with a first element, it returns that first hit in a success result. *)
Theorem get_document_term_search json_dumps respond document_id s :
  ∃ out,
    get_document json_dumps respond document_id s
    = (out, add_event s (id_search_event json_dumps document_id))
    ∧ ∀ result,
        respond (log s) (id_search_event json_dumps document_id) = Returns result →
        (out = Ok (not_found document_id) ↔
         ∃ status,
           py_getitem_str result "status" = Ok status
           ∧ (value_eq_str status "success" = false
              ∨ ∃ hits, raw_hits result = Ok hits ∧ py_len hits = Ok 0))
        ∧ (∀ hit hits,
             status_of result = Some "success" →
             raw_hits result = Ok (VList (hit :: hits)) →
             out = Ok (found hit)).
Proof.
  eexists. split; [apply get_document_run|].
  intros result ->. unfold get_document_reply. split.
  - destruct (py_getitem_str result "status") as [status|x] eqn:Hst.
    + destruct (value_eq_str status "success") eqn:Hsucc.
      * destruct (raw_hits result) as [hits|x] eqn:Hhits.
        -- destruct (py_len hits) as [n|x] eqn:Hn.
           ++ destruct n as [|n]; simpl.
              ** split; [|done]. intros _. exists status. split; [done|].
                 right. by exists hits.
              ** split.
                 --- destruct (py_getitem_0 hits) as [document|x]; [|done].
                     intros H.
                     assert (found document = not_found document_id) as H'
                       by congruence.
                     by destruct (found_not_not_found _ _ H').
                 --- intros (st & [= <-] & [H|(h & [= <-] & H)]); congruence.
           ++ split; [done|].
              intros (st & [= <-] & [H|(h & [= <-] & H)]); congruence.
        -- split; [done|]. intros (st & [= <-] & [H|(h & H & _)]); congruence.
      * split; [|done]. intros _. exists status. split; [done|]. by left.
    + split; [done|]. by intros (st & H & _).
  - intros hit hits Hs Hhits.
    rewrite (status_of_getitem _ _ Hs), Hhits. reflexivity.
Qed.

(** C8, as stated, fails: when the search itself fails, so that it yields
    no hits at all rather than an empty list of hits, [get_document] still
    answers "not found". *)
Lemma get_document_masks_search_error :
  status_of search_failure = Some "error"
  ∧ raw_hits search_failure = Exn (KeyError "'results'")
  ∧ get_document json_dumps0 respond_search_fails "doc-1" s0
    = (Ok (not_found "doc-1"), add_event s0 (id_search_event json_dumps0 "doc-1")).
Proof. repeat split; vm_compute; reflexivity. Qed.

(** ** Failures and structured results *)

(** C9: every workflow-level operation returns a structured result, a
    status that is [success] or [error] with a message, and lets no fault
    escape.  [generate_embedding] and [bulk_index_with_embeddings] do so
    whatever the provider and the index client do: their handlers catch
    every exception.  [knn_search] never raises either, and returns a
    structured result of its own or the answer of the index client as it
    is.  With the index client of the specification (a structured result
    from every wrapper method, and results in every successful search),
    [knn_search] and the two tools built on these methods,
    [index_text_with_embedding] and [text_similarity_search], return a
    structured result too. *)
Theorem workflow_results_structured json_dumps respond self :
  (∀ text model s,
     ∃ r s', generate_embedding respond self text model s = (Ok r, s')
             ∧ structured r)
  ∧ (∀ documents text_field s,
       ∃ r s', bulk_index_with_embeddings respond self documents text_field s
               = (Ok r, s')
               ∧ structured r)
  ∧ (∀ vector k s,
       ∃ r s', knn_search json_dumps respond self vector k s = (Ok r, s')
               ∧ (structured r
                  ∨ respond (log s) (search_event json_dumps self vector k)
                    = Returns r))
  ∧ (client_contract respond →
     (∀ vector k s,
        ∃ r s', knn_search json_dumps respond self vector k s = (Ok r, s')
                ∧ structured r)
     ∧ (∀ text document_id metadata s,
          ∃ r s', index_text_with_embedding respond self text document_id metadata s
                  = (Ok r, s')
                  ∧ structured r)
     ∧ (∀ text k s,
          ∃ r s', text_similarity_search json_dumps respond self text k s = (Ok r, s')
                  ∧ structured r)).
Proof.
  split; [|split; [|split]].
  - apply generate_embedding_structured.
  - apply bulk_index_structured.
  - apply knn_search_structured_or_reply.
  - intros Hc. split; [|split].
    + intros vector k s.
      destruct (knn_search_under_contract json_dumps respond self vector k s Hc)
        as (r & s' & Hrun & [[items ->]|Herr]); eexists _, _;
        (split; [exact Hrun|]); [apply structured_knn_success|by right].
    + intros text document_id metadata s.
      destruct (generate_embedding_total respond self (VStr text) None s)
        as (er & Hge & [[m ->]|[e ->]]).
      * eexists _, _. split; [by eapply index_text_embedding_failed|].
        apply structured_error.
      * rewrite (index_text_embedded _ _ _ document_id metadata _ _ _ _ Hge).
        cbn zeta.
        match goal with
        | |- context [respond ?h ?ev] =>
            destruct (Hc h ev) as (v & -> & Hv & _)
        end.
        { unfold write_event. by destruct (truthy_str document_id). }
        by eexists _, _.
    + intros text k s.
      destruct (generate_embedding_total respond self (VStr text) None s)
        as (er & Hge & [[m ->]|[e ->]]).
      * eexists _, _. split; [by eapply text_similarity_search_embedding_failed|].
        apply structured_error.
      * match type of Hge with
        | _ = (_, ?s1) =>
            destruct (knn_search_under_contract json_dumps respond self e k s1 Hc)
              as (sr & s2 & Hknn & Hsr)
        end.
        rewrite (text_similarity_search_embedded _ _ _ _ _ _ _ _ _ _ _ Hge Hknn).
        destruct Hsr as [[items ->]|[He Hm]].
        -- eexists _, _. split; [reflexivity|]. by left.
        -- rewrite (status_of_getitem _ _ He).
           change (value_eq_str (VStr "error") "success") with false.
           eexists _, _. split; [reflexivity|]. by right.
Qed.

Lemma workflow_results_structured_witness :
  ∃ r s', index_text_with_embedding respond_sample tools "hello" None None s0
          = (Ok r, s')
          ∧ structured r.
Proof.
  apply (proj1 (proj2 (proj2 (proj2 (proj2
           (workflow_results_structured json_dumps0 respond_sample tools)))
           respond_sample_contract))).
Defined.

(** The contract of the index client is needed for the two tools, which
    have no handler of their own: outside it, an exception of the write
    goes through [index_text_with_embedding], and a search that reports
    success without results makes [text_similarity_search] raise a
    [KeyError]. *)
Lemma tools_let_faults_escape :
  fst (index_text_with_embedding respond_write_raises tools "hello" None None s0)
  = Exn (RequestException "connection refused")
  ∧ fst (text_similarity_search json_dumps0 respond_bare_success tools "hello" 3 s0)
    = Exn (KeyError "'results'").
Proof. split; vm_compute; reflexivity. Qed.

(** * Further properties of the tools *)

(** ** [generate_embedding]: kinds of errors *)

Lemma message_of_error m : message_of (error_result m) = Some m.
Proof. reflexivity. Qed.

Lemma error_result_inj m1 m2 : error_result m1 = error_result m2 → m1 = m2.
Proof.
  intros H. apply (f_equal message_of) in H.
  rewrite !message_of_error in H. congruence.
Qed.

(** X1: with a token configured, [generate_embedding] issues its one POST
    and tells the two kinds of failure apart: the result is an "API request
    failed" error exactly when the exchange raised a [RequestException],
    with the text of that exception; any other exception gives an
    "Unexpected error" with its text. *)
Theorem generate_embedding_error_kinds respond self text model s :
  truthy_str (api_token self) = true →
  ∃ r,
    generate_embedding respond self text model s
    = (Ok r, add_event s (post_event self text model))
    ∧ ((∃ m, r = error_result ("API request failed: " +:+ m))
       ↔ ∃ m, respond (log s) (post_event self text model)
              = Raises (RequestException m))
    ∧ (∀ m, respond (log s) (post_event self text model)
            = Raises (RequestException m) →
            r = error_result ("API request failed: " +:+ m))
    ∧ (∀ x, respond (log s) (post_event self text model) = Raises x →
            (∀ m, x ≠ RequestException m) →
            r = error_result ("Unexpected error: " +:+ str_exn x)).
Proof.
  intros Htok. eexists. split; [by apply generate_embedding_run|].
  unfold embedding_reply.
  destruct (respond (log s) (post_event self text model)) as [body|x].
  - split; [|split; [done|done]]. split; [|by intros [m ?]].
    intros [m Hm]. destruct (first_embedding body) as [e|x].
    + apply (f_equal status_of) in Hm. discriminate.
    + apply error_result_inj in Hm. discriminate.
  - split; [|split].
    + split.
      * intros [m Hm]. destruct x; try (apply error_result_inj in Hm; discriminate).
        by eexists.
      * intros [m [= ->]]. by eexists.
    + by intros m [= ->].
    + intros x' [= <-] Hx. destruct x; try done. by destruct (Hx msg).
Qed.

Lemma generate_embedding_error_kinds_witness :
  ∃ r,
    generate_embedding respond_unauthorized tools (VStr "hello") None s0
    = (Ok r, add_event s0 (post_event tools (VStr "hello") None))
    ∧ ((∃ m, r = error_result ("API request failed: " +:+ m))
       ↔ ∃ m, respond_unauthorized (log s0) (post_event tools (VStr "hello") None)
              = Raises (RequestException m))
    ∧ (∀ m, respond_unauthorized (log s0) (post_event tools (VStr "hello") None)
            = Raises (RequestException m) →
            r = error_result ("API request failed: " +:+ m))
    ∧ (∀ x, respond_unauthorized (log s0) (post_event tools (VStr "hello") None)
            = Raises x →
            (∀ m, x ≠ RequestException m) →
            r = error_result ("Unexpected error: " +:+ str_exn x)).
Proof.
  apply (generate_embedding_error_kinds respond_unauthorized tools (VStr "hello")
           None s0).
  reflexivity.
Defined.

(** ** [knn_search]: failures of the search and shapes of the hits *)

(** X2: once the dimension check has passed, a search that raises is
    answered by a "kNN search error" with the text of the exception, and a
    search result whose status is not success is returned as it is; in
    both cases exactly the one search was issued. *)
Theorem knn_search_failure_propagates json_dumps respond self vector k s :
  py_len vector = Ok (vector_dimension self) →
  (∀ x, respond (log s) (search_event json_dumps self vector k) = Raises x →
        knn_search json_dumps respond self vector k s
        = (Ok (error_result ("kNN search error: " +:+ str_exn x)),
           add_event s (search_event json_dumps self vector k)))
  ∧ (∀ reply status,
       respond (log s) (search_event json_dumps self vector k) = Returns reply →
       status_of reply = Some status →
       status ≠ "success" →
       knn_search json_dumps respond self vector k s
       = (Ok reply, add_event s (search_event json_dumps self vector k))).
Proof.
  intros Hlen. split.
  - intros x Hx. rewrite knn_search_run by done. by rewrite Hx.
  - intros reply status Hreply Hs Hne. rewrite knn_search_run by done.
    rewrite Hreply. unfold knn_reply. rewrite (status_of_getitem _ _ Hs).
    simpl. by rewrite bool_decide_eq_false_2.
Qed.

Lemma knn_search_failure_propagates_witness :
  (∀ x, respond_search_fails (log s0) (search_event json_dumps0 tools unit_vector 3)
        = Raises x →
        knn_search json_dumps0 respond_search_fails tools unit_vector 3 s0
        = (Ok (error_result ("kNN search error: " +:+ str_exn x)),
           add_event s0 (search_event json_dumps0 tools unit_vector 3)))
  ∧ (∀ reply status,
       respond_search_fails (log s0) (search_event json_dumps0 tools unit_vector 3)
       = Returns reply →
       status_of reply = Some status →
       status ≠ "success" →
       knn_search json_dumps0 respond_search_fails tools unit_vector 3 s0
       = (Ok reply, add_event s0 (search_event json_dumps0 tools unit_vector 3))).
Proof.
  apply (knn_search_failure_propagates json_dumps0 respond_search_fails tools
           unit_vector 3 s0).
  vm_compute. reflexivity.
Defined.

Lemma simplify_hit_well_formed self hit :
  (∃ item, simplify_hit self hit = Ok item) ↔ well_formed_hit hit.
Proof.
  split.
  - intros [item Hitem]. apply simplify_hit_item in Hitem.
    destruct Hitem as (h & source & ? & ? & _). by exists h, source.
  - intros (h & source & -> & Hsrc). unfold simplify_hit, source_of, py_get in *.
    destruct (h !! "_source") as [[| | | | | |src]|]; try done.
    + destruct (h !! "_id"), (h !! "_score"), (src !! "text"); by eexists.
    + rewrite lookup_empty. destruct (h !! "_id"), (h !! "_score"); by eexists.
Qed.

Lemma simplify_hits_well_formed self hits :
  (∃ items, simplify_hits self hits = Ok items) ↔ Forall well_formed_hit hits.
Proof.
  induction hits as [|hit hits IH]; simpl.
  - split; [constructor|by eexists].
  - split.
    + intros [items Hitems].
      destruct (simplify_hit self hit) as [item|x] eqn:Hhit; [|done].
      destruct (simplify_hits self hits) as [items'|x]; [|done].
      constructor.
      * apply (simplify_hit_well_formed self). by eexists.
      * apply IH. by eexists.
    + intros Hall. apply Forall_cons in Hall as [Hhit Hrest].
      apply (simplify_hit_well_formed self) in Hhit as [item ->].
      apply IH in Hrest as [items ->]. by eexists.
Qed.

(** X3: the reshaping of the hits is all or nothing.  When the search
    succeeds with the list of hits [hits], [knn_search] returns a success
    result exactly when every hit is a mapping whose [_source], if present,
    is a mapping; one hit of another shape turns the whole answer into a
    "kNN search error", with no partial list of results. *)
Theorem knn_search_all_or_nothing json_dumps respond self vector k s reply hits :
  py_len vector = Ok (vector_dimension self) →
  respond (log s) (search_event json_dumps self vector k) = Returns reply →
  status_of reply = Some "success" →
  raw_hit_list reply = Ok hits →
  ∃ r,
    knn_search json_dumps respond self vector k s
    = (Ok r, add_event s (search_event json_dumps self vector k))
    ∧ (status_of r = Some "success" ↔ Forall well_formed_hit hits)
    ∧ (Forall well_formed_hit hits →
       ∃ items, r = knn_success items ∧ length items = length hits)
    ∧ (¬ Forall well_formed_hit hits →
       ∃ m, r = error_result ("kNN search error: " +:+ m)).
Proof.
  intros Hlen Hreply Hs Hhits. eexists. split; [by apply knn_search_run|].
  rewrite Hreply. unfold knn_reply. rewrite (status_of_getitem _ _ Hs).
  assert (has_key "results" reply = true) as ->.
  { apply has_key_field. unfold raw_hit_list in Hhits.
    destruct (py_getitem_str reply "results") as [res|x] eqn:Hres; [|done].
    apply getitem_field in Hres. eauto. }
  change (value_eq_str (VStr "success") "success" && true) with true. cbn iota.
  rewrite Hhits.
  pose proof (simplify_hits_well_formed self hits) as Hwf.
  destruct (simplify_hits self hits) as [items|x] eqn:Hitems.
  - assert (Forall well_formed_hit hits) as Hall by (apply Hwf; by eexists).
    split; [done|]. split; [|done]. intros _. exists items. split; [done|].
    apply simplify_hits_items in Hitems. symmetry. by eapply Forall2_length.
  - assert (¬ Forall well_formed_hit hits) as Hnot.
    { intros Hall. apply Hwf in Hall as [items ?]. done. }
    split; [split; [done|by intros ?]|]. split; [done|]. intros _. by eexists.
Qed.

Lemma knn_search_all_or_nothing_witness :
  ∃ r,
    knn_search json_dumps0 respond_broken_hit tools unit_vector 3 s0
    = (Ok r, add_event s0 (search_event json_dumps0 tools unit_vector 3))
    ∧ (status_of r = Some "success" ↔ Forall well_formed_hit [sample_hit; broken_hit])
    ∧ (Forall well_formed_hit [sample_hit; broken_hit] →
       ∃ items, r = knn_success items
                ∧ length items = length [sample_hit; broken_hit])
    ∧ (¬ Forall well_formed_hit [sample_hit; broken_hit] →
       ∃ m, r = error_result ("kNN search error: " +:+ m)).
Proof.
  apply (knn_search_all_or_nothing json_dumps0 respond_broken_hit tools
           unit_vector 3 s0 (search_reply [sample_hit; broken_hit])
           [sample_hit; broken_hit]).
  - vm_compute. reflexivity.
  - reflexivity.
  - reflexivity.
  - vm_compute. reflexivity.
Defined.

(** X4: a successful search whose results have no [hits] entry, or whose
    [hits] mapping has no inner [hits] list, is answered by a success
    result with an empty list of results and a total of zero: the defaults
    of the two [get] calls stand in for the missing entries. *)
Theorem knn_search_missing_hits json_dumps respond self vector k s reply
    (results : dict) :
  py_len vector = Ok (vector_dimension self) →
  respond (log s) (search_event json_dumps self vector k) = Returns reply →
  status_of reply = Some "success" →
  field_of reply "results" = Some (VDict results) →
  results !! "hits" = None
  ∨ (∃ outer : dict, results !! "hits" = Some (VDict outer) ∧ outer !! "hits" = None) →
  knn_search json_dumps respond self vector k s
  = (Ok (knn_success []), add_event s (search_event json_dumps self vector k))
  ∧ field_of (knn_success []) "total" = Some (VInt 0).
Proof.
  intros Hlen Hreply Hs Hres Hhits. split; [|done].
  rewrite knn_search_run by done. rewrite Hreply. unfold knn_reply.
  rewrite (status_of_getitem _ _ Hs).
  assert (has_key "results" reply = true) as -> by (apply has_key_field; eauto).
  change (value_eq_str (VStr "success") "success" && true) with true. cbn iota.
  unfold raw_hit_list. apply getitem_field in Hres. rewrite Hres.
  unfold py_get.
  destruct Hhits as [Hnone|(outer & Hsome & Houter)].
  - by rewrite Hnone, lookup_empty.
  - by rewrite Hsome, Houter.
Qed.

Lemma knn_search_missing_hits_witness :
  knn_search json_dumps0 respond_no_hits tools unit_vector 3 s0
  = (Ok (knn_success []), add_event s0 (search_event json_dumps0 tools unit_vector 3))
  ∧ field_of (knn_success []) "total" = Some (VInt 0).
Proof.
  apply (knn_search_missing_hits json_dumps0 respond_no_hits tools unit_vector 3 s0
           (VDict {[ "status" := VStr "success"; "results" := VDict ∅ ]}) ∅).
  - vm_compute. reflexivity.
  - reflexivity.
  - reflexivity.
  - reflexivity.
  - left. reflexivity.
Defined.

(** ** [bulk_index_with_embeddings]: the bulk request *)

(** X5: the body of the bulk request has two entries per processed
    document, in the order of the documents: the action header, which names
    the index and carries the [_id] of the document exactly when the
    document has one, then the document itself without its [_id]. *)
Theorem bulk_body_entries self (processed_docs : list dict) :
  length (bulk_body self processed_docs) = 2 * length processed_docs
  ∧ ∀ i (doc : dict),
      processed_docs !! i = Some doc →
      bulk_body self processed_docs !! (2 * i)
      = Some (action_header (index_name self) (doc !! "_id"))
      ∧ bulk_body self processed_docs !! (2 * i + 1)
        = Some (VDict (delete "_id" doc))
      ∧ delete "_id" doc !! "_id" = None.
Proof.
  induction processed_docs as [|d docs [IHlen IH]].
  - split; [done|]. intros i doc Hi. by rewrite lookup_nil in Hi.
  - split.
    + simpl. destruct (d !! "_id"); simpl; rewrite IHlen; lia.
    + intros [|i] doc Hi.
      * injection Hi as ->. simpl. unfold action_header.
        destruct (doc !! "_id") eqn:Hid; simpl.
        -- split; [done|]. split; [done|]. apply lookup_delete_eq.
        -- split; [done|]. rewrite delete_id by done. by split.
      * simpl in Hi. destruct (IH i doc Hi) as (H1 & H2 & H3).
        replace (2 * S i) with (S (S (2 * i))) by lia.
        replace (S (S (2 * i)) + 1) with (S (S (2 * i + 1))) by lia.
        simpl bulk_body. by destruct (d !! "_id").
Qed.

Lemma embed_documents_unconfigured respond self text_field documents :
  truthy_str (api_token self) = false →
  ∀ processed_docs failed_docs s,
    embed_documents respond self text_field documents processed_docs failed_docs s
    = (Ok (processed_docs,
           failed_docs ++
             ((λ doc, failure doc (unconfigured_reason text_field doc)) <$> documents)),
       s).
Proof.
  intros Htok. induction documents as [|doc documents IH];
    intros processed_docs failed_docs s; simpl.
  - by rewrite app_nil_r.
  - unfold unconfigured_reason at 1.
    destruct (doc !! text_field) as [text|] eqn:Htext.
    + unfold bind at 1. rewrite generate_embedding_unconfigured by done.
      unfold bind at 1, lift at 1. rewrite getitem_status_error.
      change (value_eq_str (VStr "error") "success") with false. cbn [negb].
      unfold bind at 1, lift at 1. rewrite getitem_message_error.
      rewrite IH. by rewrite <- app_assoc.
    + rewrite IH. by rewrite <- app_assoc.
Qed.

(** X6: with no API token configured, [bulk_index_with_embeddings] fails
    every document without embedding anything: it returns the "no documents
    were processed" error whose failure list has, for each input document
    in order, the missing-text-field reason when the document lacks the
    text field and the unconfigured-token reason otherwise, and the state
    is left as it was: no remote call at all. *)
Theorem bulk_index_without_token respond self documents text_field s :
  truthy_str (api_token self) = false →
  bulk_index_with_embeddings respond self documents text_field s
  = (Ok (no_documents_error
           ((λ doc, failure doc (unconfigured_reason text_field doc)) <$> documents)),
     s).
Proof.
  intros Htok. apply bulk_index_none_processed.
  by rewrite embed_documents_unconfigured.
Qed.

Lemma bulk_index_without_token_witness :
  bulk_index_with_embeddings respond_sample tools_no_token two_documents "text" s0
  = (Ok (no_documents_error
           ((λ doc, failure doc (unconfigured_reason "text" doc)) <$> two_documents)),
     s0).
Proof.
  apply (bulk_index_without_token respond_sample tools_no_token two_documents
           "text" s0).
  reflexivity.
Defined.

Lemma embed_documents_log respond self text_field documents :
  ∀ processed_docs failed_docs s,
  ∃ processed failed s',
    embed_documents respond self text_field documents processed_docs failed_docs s
    = (Ok (processed, failed), s')
    ∧ heap s' = heap s
    ∧ log s' = log s ++ posts_of self text_field documents.
Proof.
  unfold posts_of. destruct (truthy_str (api_token self)) eqn:Htok.
  - induction documents as [|doc documents IH];
      intros processed_docs failed_docs s; simpl.
    + eexists _, _, _. split; [done|]. split; [done|]. by rewrite app_nil_r.
    + unfold texts_of in *. simpl.
      destruct (doc !! text_field) as [text|] eqn:Htext; simpl.
      * destruct (generate_embedding_total respond self text None s)
          as (er & Hge & [[m ->]|[e ->]]); rewrite Htok in Hge.
        -- unfold bind at 1. rewrite Hge. unfold bind at 1, lift at 1.
           rewrite getitem_status_error.
           change (value_eq_str (VStr "error") "success") with false. cbn [negb].
           unfold bind at 1, lift at 1. rewrite getitem_message_error.
           destruct (IH processed_docs (failed_docs ++ [failure doc (VStr m)])
                       (add_event s (post_event self text None)))
             as (p & f & s' & -> & Hh & Hl).
           eexists _, _, _. split; [done|]. split; [done|].
           rewrite Hl. simpl. by rewrite <- app_assoc.
        -- unfold bind at 1. rewrite Hge. unfold bind at 1, lift at 1.
           rewrite getitem_status_embedding.
           change (value_eq_str (VStr "success") "success") with true. cbn [negb].
           unfold bind at 1, lift at 1. rewrite getitem_embedding.
           destruct (IH (processed_docs ++ [<[vector_field self := e]> doc])
                       failed_docs (add_event s (post_event self text None)))
             as (p & f & s' & -> & Hh & Hl).
           eexists _, _, _. split; [done|]. split; [done|].
           rewrite Hl. simpl. by rewrite <- app_assoc.
      * apply IH.
  - intros processed_docs failed_docs s.
    rewrite embed_documents_unconfigured by done.
    eexists _, _, _. split; [done|]. split; [done|]. by rewrite app_nil_r.
Qed.

(** X7: the calls of [bulk_index_with_embeddings], in order.  First one
    POST to the provider for each document that has the text field (none
    for the others, and none at all without a token); then, only if some
    document was processed, [get_client()] and, if that returned, one bulk
    call whose body is built from all the processed documents.  An
    exception of [get_client()] or of the bulk call is answered by a "Bulk
    indexing error" with its text.  The store of dictionaries is never
    touched. *)
Theorem bulk_index_call_sequence respond self documents text_field s :
  ∃ processed failed s1 r s2,
    embed_documents respond self text_field documents [] [] s
    = (Ok (processed, failed), s1)
    ∧ bulk_index_with_embeddings respond self documents text_field s = (Ok r, s2)
    ∧ heap s2 = heap s
    ∧ log s1 = log s ++ posts_of self text_field documents
    ∧ log s2 = log s1 ++ writes_of respond self (log s1) processed
    ∧ (∀ x, processed ≠ [] →
            respond (log s1) EvGetClient = Raises x → r = bulk_error x)
    ∧ (∀ client x, processed ≠ [] →
            respond (log s1) EvGetClient = Returns client →
            respond (log s1 ++ [EvGetClient]) (EvBulk (bulk_body self processed))
            = Raises x →
            r = bulk_error x).
Proof.
  destruct (embed_documents_log respond self text_field documents [] [] s)
    as (processed & failed & s1 & Hloop & Hheap & Hlog).
  exists processed, failed, s1.
  destruct processed as [|doc processed].
  - eexists _, _. split; [done|]. split; [by apply bulk_index_none_processed|].
    split; [done|]. split; [done|]. simpl. rewrite app_nil_r. by repeat split.
  - rewrite (bulk_index_some_processed _ _ _ _ _ _ _ _ _ Hloop).
    unfold writes_of.
    destruct (respond (log s1) EvGetClient) as [client|x] eqn:Hclient.
    + cbn zeta. change (log (add_event s1 EvGetClient)) with (log s1 ++ [EvGetClient]).
      destruct (respond (log s1 ++ [EvGetClient]) _) as [response|x] eqn:Hbulk;
        eexists _, _; (split; [done|]); (split; [done|]); (split; [done|]);
        (split; [done|]); (split; [by simpl; rewrite <- app_assoc|]);
        (split; [done|]); intros c x' _ _ Hx; congruence.
    + eexists _, _. split; [done|]. split; [done|]. split; [done|].
      split; [done|]. split; [done|]. split; [|done].
      by intros x' _ [= ->].
Qed.

Lemma embed_documents_order respond self text_field documents :
  ∀ processed_docs failed_docs s,
  ∃ processed failed s' ds fs,
    embed_documents respond self text_field documents processed_docs failed_docs s
    = (Ok (processed_docs ++ processed, failed_docs ++ failed), s')
    ∧ ds `sublist_of` documents
    ∧ fs `sublist_of` documents
    ∧ ds ++ fs ≡ₚ documents
    ∧ Forall2 (embedded_copy self) ds processed
    ∧ Forall2 failure_of fs failed.
Proof.
  induction documents as [|doc documents IH]; intros processed_docs failed_docs s.
  - exists [], [], s, [], []. simpl. unfold ret. rewrite !app_nil_r.
    split; [done|]. split; [done|]. split; [done|]. split; [done|].
    split; constructor.
  - simpl. destruct (doc !! text_field) as [text|] eqn:Htext.
    + destruct (generate_embedding_total respond self text None s)
        as (er & Hge & [[m ->]|[e ->]]).
      * unfold bind at 1. rewrite Hge. unfold bind at 1, lift at 1.
        rewrite getitem_status_error.
        change (value_eq_str (VStr "error") "success") with false. cbn [negb].
        unfold bind at 1, lift at 1. rewrite getitem_message_error.
        match goal with
        | |- context [embed_documents _ _ _ _ ?p ?f ?st] =>
            destruct (IH p f st)
              as (processed & failed & s' & ds & fs & -> & Hd & Hf & Hp & Hds & Hfs)
        end.
        exists processed, (failure doc (VStr m) :: failed), s', ds, (doc :: fs).
        rewrite <- app_assoc. split; [done|].
        split; [by apply sublist_cons|]. split; [by apply sublist_skip|].
        split; [by rewrite <- Permutation_middle, Hp|].
        split; [done|]. constructor; [by eexists|done].
      * unfold bind at 1. rewrite Hge. unfold bind at 1, lift at 1.
        rewrite getitem_status_embedding.
        change (value_eq_str (VStr "success") "success") with true. cbn [negb].
        unfold bind at 1, lift at 1. rewrite getitem_embedding.
        match goal with
        | |- context [embed_documents _ _ _ _ ?p ?f ?st] =>
            destruct (IH p f st)
              as (processed & failed & s' & ds & fs & -> & Hd & Hf & Hp & Hds & Hfs)
        end.
        exists (<[vector_field self := e]> doc :: processed), failed, s',
          (doc :: ds), fs.
        rewrite <- app_assoc. split; [done|].
        split; [by apply sublist_skip|]. split; [by apply sublist_cons|].
        split; [simpl; by rewrite Hp|].
        split; [|done]. constructor; [by eexists|done].
    + match goal with
      | |- context [embed_documents _ _ _ _ ?p ?f ?st] =>
          destruct (IH p f st)
            as (processed & failed & s' & ds & fs & -> & Hd & Hf & Hp & Hds & Hfs)
      end.
      exists processed,
        (failure doc (VStr ("Missing text field '" +:+ text_field +:+ "'")) :: failed),
        s', ds, (doc :: fs).
      rewrite <- app_assoc. split; [done|].
      split; [by apply sublist_cons|]. split; [by apply sublist_skip|].
      split; [by rewrite <- Permutation_middle, Hp|].
      split; [done|]. constructor; [by eexists|done].
Qed.

(** X8: the embedding loop of the bulk operation keeps the order of its
    input and loses nothing: the processed documents are, in order, copies
    with an embedding attached of a subsequence of the input documents, the
    failure entries are, in order, those of another subsequence, and the
    two subsequences together are the input documents. *)
Theorem bulk_index_keeps_order respond self documents text_field s :
  ∃ processed failed s1 ds fs,
    embed_documents respond self text_field documents [] [] s
    = (Ok (processed, failed), s1)
    ∧ ds `sublist_of` documents
    ∧ fs `sublist_of` documents
    ∧ ds ++ fs ≡ₚ documents
    ∧ Forall2 (embedded_copy self) ds processed
    ∧ Forall2 failure_of fs failed.
Proof.
  destruct (embed_documents_order respond self text_field documents [] [] s)
    as (processed & failed & s1 & ds & fs & H).
  by exists processed, failed, s1, ds, fs.
Qed.

(** ** [index_text_with_embedding] *)

Lemma generate_embedding_heap respond self text model s out s1 :
  generate_embedding respond self text model s = (out, s1) → heap s1 = heap s.
Proof.
  destruct (generate_embedding_total respond self text model s) as (r & -> & _).
  intros [= _ <-]. by destruct (truthy_str _).
Qed.

Lemma document_of_contents self text e metadata h :
  document_of self text e metadata h
  = <[vector_field self := e]> (<["text" := VStr text]> (metadata_contents metadata h)).
Proof.
  unfold document_of, keeps_metadata, metadata_contents.
  destruct metadata as [l|]; simpl; [|done].
  destruct (Nat.eqb_spec (size (default ∅ (h !! l))) 0) as [Hz|Hnz]; simpl; [|done].
  apply map_size_empty_iff in Hz. by rewrite Hz.
Qed.

Lemma write_event_routed document_id document :
  write_event document_id document = routed document_id document.
Proof. by destruct document_id as [[|c id]|]. Qed.

(** X9: when [index_text_with_embedding] is given no metadata, or a
    metadata dictionary that is empty, it builds the document in a new
    dictionary: every dictionary of the caller, the empty one included,
    is left as it was, and the index client receives exactly the text and
    the vector field. *)
Theorem index_text_fresh_document respond self text document_id metadata s e s1 :
  metadata = None ∨ (∃ l, metadata = Some l ∧ heap s !! l = Some ∅) →
  generate_embedding respond self (VStr text) None s
  = (Ok (embedding_success e (default_model self)), s1) →
  ∃ out s2,
    index_text_with_embedding respond self text document_id metadata s = (out, s2)
    ∧ log s2 = log s1 ++ [routed document_id
                            (<[vector_field self := e]> {[ "text" := VStr text ]})]
    ∧ heap s2 = <[fresh (dom (heap s)) :=
                    <[vector_field self := e]> {[ "text" := VStr text ]}]> (heap s)
    ∧ (∀ l (d : dict), heap s !! l = Some d → heap s2 !! l = Some d).
Proof.
  intros Hmeta Hge.
  pose proof (generate_embedding_heap _ _ _ _ _ _ _ Hge) as Hheap.
  pose proof (index_text_embedded _ _ _ document_id metadata _ _ _ _ Hge) as Hrun.
  cbn zeta in Hrun. rewrite Hheap, write_event_routed in Hrun.
  assert (keeps_metadata metadata (heap s) = false) as Hkeep.
  { destruct Hmeta as [->|(l & -> & Hl)]; [done|].
    unfold keeps_metadata. rewrite Hl. simpl. by rewrite map_size_empty. }
  unfold document_of, target_of in Hrun. rewrite Hkeep in Hrun.
  rewrite insert_empty in Hrun.
  assert (∀ r : res value * state, ∃ out s2, r = (out, s2)) as Hpair
    by (intros [out s2]; eauto).
  destruct (Hpair (index_text_with_embedding respond self text document_id metadata s))
    as (out & s2 & Hout).
  exists out, s2. split; [done|]. rewrite Hout in Hrun.
  assert (heap s2 = <[fresh (dom (heap s)) :=
                        <[vector_field self := e]> {[ "text" := VStr text ]}]> (heap s)
          ∧ log s2 = log s1 ++ [routed document_id
                                  (<[vector_field self := e]> {[ "text" := VStr text ]})])
    as [Hh2 Hl2].
  { destruct (respond _ _); by injection Hrun as -> ->. }
  split; [done|]. split; [done|].
  intros l d Hl. rewrite Hh2, lookup_insert_ne; [done|].
  intros <-. pose proof (is_fresh (dom (heap s))) as Hfresh.
  apply not_elem_of_dom in Hfresh. congruence.
Qed.

Lemma index_text_fresh_document_witness :
  ∃ out s2,
    index_text_with_embedding respond_short tools "hello" None (Some 1%positive)
      s_empty_metadata = (out, s2)
    ∧ log s2 = log (add_event s_empty_metadata (post_event tools (VStr "hello") None))
               ++ [routed None (<[vector_field tools := short_vector]>
                                  {[ "text" := VStr "hello" ]})]
    ∧ heap s2 = <[fresh (dom (heap s_empty_metadata)) :=
                    <[vector_field tools := short_vector]> {[ "text" := VStr "hello" ]}]>
                  (heap s_empty_metadata)
    ∧ (∀ l (d : dict), heap s_empty_metadata !! l = Some d → heap s2 !! l = Some d).
Proof.
  apply (index_text_fresh_document respond_short tools "hello" None (Some 1%positive)
           s_empty_metadata short_vector).
  - right. exists 1%positive. split; reflexivity.
  - vm_compute. reflexivity.
Defined.

(** X10: what [index_text_with_embedding] calls and returns.  When the
    embedding is not a success the embedding result is returned and
    nothing is written.  When it is, exactly one call on the index client
    follows: [write_document] under the given identifier when that is a
    non-empty string, [index_document] when it is [None] or empty; and the
    tool returns the answer of that call as it is, or lets its exception
    through. *)
Theorem index_text_routing respond self text document_id metadata s :
  ∃ er s1 out s2,
    generate_embedding respond self (VStr text) None s = (Ok er, s1)
    ∧ index_text_with_embedding respond self text document_id metadata s = (out, s2)
    ∧ (status_of er ≠ Some "success" → out = Ok er ∧ s2 = s1)
    ∧ (status_of er = Some "success" →
       ∃ document,
         log s2 = log s1 ++ [routed document_id document]
         ∧ out = outcome_result (respond (log s1) (routed document_id document))).
Proof.
  destruct (generate_embedding_total respond self (VStr text) None s)
    as (er & Hge & [[m ->]|[e ->]]).
  - eexists _, _, _, _. split; [exact Hge|].
    split; [by eapply index_text_embedding_failed|]. by split.
  - pose proof (index_text_embedded _ _ _ document_id metadata _ _ _ _ Hge) as Hrun.
    cbn zeta in Hrun. rewrite write_event_routed in Hrun.
    destruct (respond _ (routed _ _)) as [v|x] eqn:Hw;
      eexists _, _, _, _; (split; [exact Hge|]); (split; [exact Hrun|]);
      (split; [done|]); intros _; eexists; (split; [done|]); by rewrite Hw.
Qed.

(** X11: when the embedding succeeds and the vector field is not called
    [text], the document [index_text_with_embedding] hands to the index
    client has the given text under [text] and the returned embedding under
    the vector field, whatever the metadata held under these two keys, and
    carries every other entry of the metadata unchanged. *)
Theorem index_text_document_contents respond self text document_id metadata s e s1 :
  vector_field self ≠ "text" →
  generate_embedding respond self (VStr text) None s
  = (Ok (embedding_success e (default_model self)), s1) →
  ∃ out s2 (document : dict),
    index_text_with_embedding respond self text document_id metadata s = (out, s2)
    ∧ log s2 = log s1 ++ [routed document_id document]
    ∧ document !! "text" = Some (VStr text)
    ∧ document !! vector_field self = Some e
    ∧ (∀ key, key ≠ "text" → key ≠ vector_field self →
         document !! key = metadata_contents metadata (heap s) !! key).
Proof.
  intros Hvf Hge.
  pose proof (generate_embedding_heap _ _ _ _ _ _ _ Hge) as Hheap.
  pose proof (index_text_embedded _ _ _ document_id metadata _ _ _ _ Hge) as Hrun.
  cbn zeta in Hrun.
  rewrite Hheap, write_event_routed, document_of_contents in Hrun.
  destruct (respond _ _) as [v|x]; eexists _, _, _;
    (split; [exact Hrun|]); (split; [done|]); (split; [|split]).
  all: try by rewrite lookup_insert_ne, lookup_insert_eq.
  all: try by rewrite lookup_insert_eq.
  all: intros key H1 H2; by rewrite !lookup_insert_ne.
Qed.

Lemma index_text_document_contents_witness :
  ∃ out s2 (document : dict),
    index_text_with_embedding respond_short tools "hello" (Some "doc-1")
      (Some 1%positive) s_text_metadata = (out, s2)
    ∧ log s2 = log (add_event s_text_metadata (post_event tools (VStr "hello") None))
               ++ [routed (Some "doc-1") document]
    ∧ document !! "text" = Some (VStr "hello")
    ∧ document !! vector_field tools = Some short_vector
    ∧ (∀ key, key ≠ "text" → key ≠ vector_field tools →
         document !! key
         = metadata_contents (Some 1%positive) (heap s_text_metadata) !! key).
Proof.
  apply (index_text_document_contents respond_short tools "hello" (Some "doc-1")
           (Some 1%positive) s_text_metadata short_vector).
  - vm_compute. discriminate.
  - vm_compute. reflexivity.
Defined.

(** ** [text_similarity_search] *)

(** X12: when the provider returns an embedding whose length is not the
    configured dimension, [text_similarity_search] returns the dimension
    mismatch error of [knn_search] and stops after the POST: no search is
    issued. *)
Theorem text_similarity_search_wrong_dimension json_dumps respond self text k s
    e s1 n :
  generate_embedding respond self (VStr text) None s
  = (Ok (embedding_success e (default_model self)), s1) →
  py_len e = Ok n →
  n ≠ vector_dimension self →
  text_similarity_search json_dumps respond self text k s
  = (Ok (error_result ("Vector dimension mismatch. Expected "
                       +:+ pretty (vector_dimension self)
                       +:+ ", got " +:+ pretty n)), s1).
Proof.
  intros Hge Hlen Hne.
  erewrite text_similarity_search_embedded;
    [|exact Hge|by eapply knn_search_reject].
  by rewrite getitem_status_error.
Qed.

Lemma text_similarity_search_wrong_dimension_witness :
  text_similarity_search json_dumps0 respond_short tools "hello" 3 s0
  = (Ok (error_result "Vector dimension mismatch. Expected 1024, got 2"),
     add_event s0 (post_event tools (VStr "hello") None)).
Proof.
  apply (text_similarity_search_wrong_dimension json_dumps0 respond_short tools
           "hello" 3 s0 short_vector
           (add_event s0 (post_event tools (VStr "hello") None)) 2).
  - vm_compute. reflexivity.
  - reflexivity.
  - vm_compute. lia.
Defined.

(** X13: [text_similarity_search] never writes: it leaves the store of
    dictionaries as it was, and the calls it adds to the log are nothing,
    or the POST to the provider, or that POST followed by one search with
    an embedding of the configured dimension. *)
Theorem text_similarity_search_calls json_dumps respond self text k s :
  ∃ out s2,
    text_similarity_search json_dumps respond self text k s = (out, s2)
    ∧ heap s2 = heap s
    ∧ (log s2 = log s
       ∨ log s2 = log s ++ [post_event self (VStr text) None]
       ∨ ∃ e, py_len e = Ok (vector_dimension self)
              ∧ log s2 = log s ++ [post_event self (VStr text) None;
                                   search_event json_dumps self e k]).
Proof.
  destruct (generate_embedding_total respond self (VStr text) None s)
    as (er & Hge & [[m ->]|[e ->]]).
  - eexists _, _. split; [by eapply text_similarity_search_embedding_failed|].
    destruct (truthy_str (api_token self)); split; auto.
  - destruct (knn_search_total json_dumps respond self e k
                (if truthy_str (api_token self)
                 then add_event s (post_event self (VStr text) None) else s))
      as [sr Hknn].
    pose proof (text_similarity_search_embedded _ _ _ _ _ _ _ _ _ _ _ Hge Hknn) as Hrun.
    assert (truthy_str (api_token self) = true) as Htok.
    { destruct (truthy_str (api_token self)) eqn:Htok; [done|].
      rewrite generate_embedding_unconfigured in Hge by done.
      apply (f_equal (λ p, match fst p with
                           | Ok r => status_of r
                           | Exn _ => None
                           end)) in Hge.
      discriminate. }
    rewrite Htok in Hrun, Hknn.
    assert (∀ r : res value * state, ∃ out s2, r = (out, s2)) as Hpair
      by (intros [out s2]; eauto).
    destruct (Hpair (text_similarity_search json_dumps respond self text k s))
      as (out & s2 & Hout).
    exists out, s2. split; [done|]. rewrite Hout in Hrun.
    assert (s2 = if dimension_ok self e
                 then add_event (add_event s (post_event self (VStr text) None))
                        (search_event json_dumps self e k)
                 else add_event s (post_event self (VStr text) None)) as ->.
    { destruct (py_getitem_str sr "status") as [st|x]; [|congruence].
      destruct (value_eq_str st "success"); [|congruence].
      destruct (py_getitem_str sr "results"); congruence. }
    unfold dimension_ok. destruct (py_len e) as [n|x] eqn:Hn; [|by auto].
    destruct (Nat.eqb_spec n (vector_dimension self)) as [->|Hne]; [|by auto].
    split; [done|]. right. right. exists e. split; [done|].
    simpl. by rewrite <- app_assoc.
Qed.

(** ** [get_document]: no handler *)

(** X14: [get_document] has no handler of its own: an exception of the
    search goes through to the caller, a result without [status] raises a
    [KeyError], and so does a success result without [results]. *)
Theorem get_document_lets_exceptions_through json_dumps respond document_id s :
  (∀ x, respond (log s) (id_search_event json_dumps document_id) = Raises x →
        get_document json_dumps respond document_id s
        = (Exn x, add_event s (id_search_event json_dumps document_id)))
  ∧ (∀ reply : dict,
       respond (log s) (id_search_event json_dumps document_id)
       = Returns (VDict reply) →
       reply !! "status" = None →
       get_document json_dumps respond document_id s
       = (Exn (KeyError "'status'"),
          add_event s (id_search_event json_dumps document_id)))
  ∧ (∀ reply : dict,
       respond (log s) (id_search_event json_dumps document_id)
       = Returns (VDict reply) →
       reply !! "status" = Some (VStr "success") →
       reply !! "results" = None →
       get_document json_dumps respond document_id s
       = (Exn (KeyError "'results'"),
          add_event s (id_search_event json_dumps document_id))).
Proof.
  split; [|split].
  - intros x Hx. by rewrite get_document_run, Hx.
  - intros reply Hreply Hst. rewrite get_document_run, Hreply.
    unfold get_document_reply, py_getitem_str. by rewrite Hst.
  - intros reply Hreply Hst Hres. rewrite get_document_run, Hreply.
    unfold get_document_reply, raw_hits, py_getitem_str. by rewrite Hst, Hres.
Qed.

(** ** From indexing to searching *)

Lemma metadata_of_document self text e (base : dict) :
  vector_field self ≠ "text" →
  metadata_of self (<[vector_field self := e]> (<["text" := VStr text]> base))
  = delete "text" (delete (vector_field self) base).
Proof.
  intros Hvf. apply map_eq. intros key. rewrite metadata_of_lookup.
  case_decide as Hk.
  - destruct Hk as [->| ->].
    + by rewrite lookup_delete_eq.
    + by rewrite lookup_delete_ne, lookup_delete_eq.
  - rewrite !lookup_insert_ne, !lookup_delete_ne by naive_solver. done.
Qed.

(** X15: a round trip.  When the vector field is not called [text], the
    document that [index_text_with_embedding] builds from a text, an
    embedding and the caller's metadata, once it comes back as the
    [_source] of a hit, is reshaped by [knn_search] into an item whose
    text is the original text and whose metadata is the caller's metadata
    without its [text] and vector entries: the embedding is not shown. *)
Theorem indexed_document_round_trip self text e metadata h id score :
  vector_field self ≠ "text" →
  simplify_hit self
    (VDict {[ "_id" := id; "_score" := score;
              "_source" := VDict (document_of self text e metadata h) ]})
  = Ok (result_item id score (VStr text)
          (delete "text" (delete (vector_field self) (metadata_contents metadata h)))).
Proof.
  intros Hvf. rewrite document_of_contents.
  unfold simplify_hit.
  change (py_get (VDict {[ "_id" := id; "_score" := score;
                           "_source" := VDict ?d ]}) "_source" (VDict ∅))
    with (Ok (VDict d)).
  cbn iota.
  change (py_get (VDict {[ "_id" := id; "_score" := score;
                           "_source" := VDict ?d ]}) "_id" VNone)
    with (Ok id).
  change (py_get (VDict {[ "_id" := id; "_score" := score;
                           "_source" := VDict ?d ]}) "_score" VNone)
    with (Ok score).
  cbn iota. unfold py_get, py_items.
  rewrite lookup_insert_ne, lookup_insert_eq by done.
  by rewrite metadata_of_document.
Qed.

Lemma indexed_document_round_trip_witness :
  simplify_hit tools
    (VDict {[ "_id" := VStr "doc-1"; "_score" := VInt 1;
              "_source" := VDict (document_of tools "hello" short_vector
                                    (Some 1%positive) (heap s_text_metadata)) ]})
  = Ok (result_item (VStr "doc-1") (VInt 1) (VStr "hello")
          (delete "text" (delete (vector_field tools)
             (metadata_contents (Some 1%positive) (heap s_text_metadata))))).
Proof.
  apply (indexed_document_round_trip tools "hello" short_vector (Some 1%positive)
           (heap s_text_metadata) (VStr "doc-1") (VInt 1)).
  vm_compute. discriminate.
Defined.

(** ** [bulk_index_documents] *)

Lemma index_actions_generated index_name documents :
  ∀ bulk_data s,
    index_actions index_name true documents bulk_data s
    = (Ok (bulk_data ++ plain_actions index_name documents), s).
Proof.
  induction documents as [|doc documents IH]; intros bulk_data s; simpl.
  - unfold ret. by rewrite app_nil_r.
  - unfold bind, deref. rewrite andb_false_r. rewrite IH.
    by rewrite <- app_assoc.
Qed.

Lemma index_actions_popped index_name documents :
  ∀ bulk_data s,
    index_actions index_name false documents bulk_data s
    = (Ok (bulk_data ++ actions_of index_name documents (heap s)),
       mkState (strip_ids documents (heap s)) (log s)).
Proof.
  induction documents as [|doc documents IH]; intros bulk_data s; simpl.
  - unfold ret. rewrite app_nil_r. by destruct s.
  - unfold bind at 1, deref at 1. rewrite andb_true_r.
    unfold strip_id, action_header.
    destruct (default ∅ (heap s !! doc) !! "_id") as [id|] eqn:Hid.
    + rewrite bool_decide_eq_true_2 by eauto.
      unfold bind at 1, pop. rewrite Hid. rewrite IH. cbn [heap log].
      by rewrite <- app_assoc.
    + rewrite bool_decide_eq_false_2 by (by intros [? ?]).
      rewrite IH. by rewrite <- app_assoc.
Qed.

Lemma bulk_index_documents_run respond index_name documents generate_ids s :
  bulk_index_documents respond index_name documents generate_ids s
  = match respond (log s) EvGetClient with
    | Raises x => (Ok (bulk_error x), add_event s EvGetClient)
    | Returns _ =>
        let h := if generate_ids then heap s else strip_ids documents (heap s) in
        let body :=
          item_value h <$> (if generate_ids then plain_actions index_name documents
                            else actions_of index_name documents (heap s)) in
        let s2 := mkState h (log s ++ [EvGetClient; EvBulk body]) in
        match respond (log s ++ [EvGetClient]) (EvBulk body) with
        | Returns response => (Ok (document_success response), s2)
        | Raises x => (Ok (bulk_error x), s2)
        end
    end.
Proof.
  unfold bulk_index_documents, try_except. unfold bind at 1, call at 1.
  destruct (respond (log s) EvGetClient) as [client|x]; [|done].
  destruct generate_ids.
  - unfold bind at 1. rewrite index_actions_generated. simpl.
    unfold bind, read_items, call, ret. simpl. rewrite <- app_assoc. simpl.
    by destruct (respond _ (EvBulk _)).
  - unfold bind at 1. rewrite index_actions_popped. simpl.
    unfold bind, read_items, call, ret. simpl. rewrite <- app_assoc. simpl.
    by destruct (respond _ (EvBulk _)).
Qed.

Lemma strip_id_lookup (h : gmap loc dict) doc l :
  strip_id h doc !! l
  = if decide (l = doc) then delete "_id" <$> h !! l else h !! l.
Proof.
  unfold strip_id.
  destruct (default ∅ (h !! doc) !! "_id") as [id|] eqn:Hid.
  - case_decide as Hl.
    + subst. rewrite lookup_insert_eq.
      destruct (h !! doc) as [d|]; [done|]. simpl in Hid.
      by rewrite lookup_empty in Hid.
    + by rewrite lookup_insert_ne.
  - case_decide as Hl; [|done]. subst.
    destruct (h !! doc) as [d|]; [|done]. simpl in *. by rewrite delete_id.
Qed.

Lemma strip_ids_lookup documents :
  ∀ (h : gmap loc dict) l,
    strip_ids documents h !! l
    = if decide (l ∈ documents) then delete "_id" <$> h !! l else h !! l.
Proof.
  unfold strip_ids. induction documents as [|doc documents IH]; intros h l;
    cbn [foldl].
  - by rewrite decide_False by apply not_elem_of_nil.
  - rewrite IH, strip_id_lookup.
    destruct (decide (l = doc)) as [->|Hne].
    + rewrite (decide_True (P := doc ∈ doc :: documents))
        by (apply elem_of_cons; by left).
      case_decide; [|done].
      destruct (h !! doc) as [d|]; [|done]. simpl. by rewrite delete_delete_eq.
    + destruct (decide (l ∈ documents)) as [Hin|Hnin].
      * by rewrite decide_True by (apply elem_of_cons; by right).
      * rewrite decide_False; [done|]. by intros [?|?]%elem_of_cons.
Qed.

Lemma actions_of_length index_name documents :
  ∀ h, length (actions_of index_name documents h) = 2 * length documents.
Proof.
  induction documents as [|doc documents IH]; intros h; simpl; [done|].
  rewrite IH. lia.
Qed.

Lemma plain_actions_length index_name documents :
  length (plain_actions index_name documents) = 2 * length documents.
Proof.
  unfold plain_actions. induction documents as [|doc documents IH]; [done|].
  rewrite bind_cons, length_app, IH. simpl. lia.
Qed.

Lemma actions_of_lookup index_name documents :
  ∀ (h : gmap loc dict) i doc,
    documents !! i = Some doc →
    actions_of index_name documents h !! (2 * i)
    = Some (Action (action_header index_name
                      (if decide (doc ∈ take i documents) then None
                       else contents_of h doc !! "_id")))
    ∧ actions_of index_name documents h !! (2 * i + 1) = Some (Document doc).
Proof.
  induction documents as [|d documents IH]; intros h i doc Hi.
  - by rewrite lookup_nil in Hi.
  - destruct i as [|i].
    + injection Hi as ->. change (take 0 (doc :: documents)) with (@nil loc).
      by rewrite decide_False by apply not_elem_of_nil.
    + simpl in Hi. destruct (IH (strip_id h d) i doc Hi) as [Hhead Hdoc].
      replace (2 * S i) with (S (S (2 * i))) by lia.
      replace (S (S (2 * i)) + 1) with (S (S (2 * i + 1))) by lia.
      assert (∀ (a b : bulk_item) l n, (a :: b :: l) !! S (S n) = l !! n) as Hskip
        by done.
      cbn [actions_of]. rewrite !Hskip. split; [|done]. rewrite Hhead.
      change (take (S i) (d :: documents)) with (d :: take i documents).
      do 3 f_equal.
      unfold contents_of. rewrite strip_id_lookup.
      destruct (decide (doc ∈ take i documents)) as [Hin|Hnin].
      * rewrite decide_True; [done|]. apply elem_of_cons. by right.
      * destruct (decide (doc = d)) as [->|Hne].
        -- rewrite decide_True by (apply elem_of_cons; by left).
           destruct (h !! d) as [c|]; simpl; [by rewrite lookup_delete_eq|done].
        -- rewrite decide_False; [done|].
           intros [?|?]%elem_of_cons; done.
Qed.

Lemma plain_actions_lookup index_name documents :
  ∀ i doc,
    documents !! i = Some doc →
    plain_actions index_name documents !! (2 * i)
    = Some (Action (action_header index_name None))
    ∧ plain_actions index_name documents !! (2 * i + 1) = Some (Document doc).
Proof.
  unfold plain_actions. induction documents as [|d documents IH]; intros i doc Hi.
  - by rewrite lookup_nil in Hi.
  - destruct i as [|i].
    + injection Hi as ->. by rewrite bind_cons.
    + simpl in Hi. destruct (IH i doc Hi) as [Hhead Hdoc].
      replace (2 * S i) with (S (S (2 * i))) by lia.
      replace (S (S (2 * i)) + 1) with (S (S (2 * i + 1))) by lia.
      rewrite bind_cons. by split.
Qed.

(** X16: [bulk_index_documents] never raises.  When [get_client()] raises,
    it returns a "Bulk indexing error" and nothing else was called.
    Otherwise it issues exactly one bulk call, whose body has two entries
    per document, even for an empty list of documents (the body is then
    empty), and returns a success result with the response of that call,
    or a "Bulk indexing error" when the call raised. *)
Theorem bulk_index_documents_calls respond index_name documents generate_ids s :
  ∃ r s2,
    bulk_index_documents respond index_name documents generate_ids s = (Ok r, s2)
    ∧ ((∃ x, respond (log s) EvGetClient = Raises x
             ∧ r = bulk_error x ∧ s2 = add_event s EvGetClient)
       ∨ (∃ client body,
            respond (log s) EvGetClient = Returns client
            ∧ length body = 2 * length documents
            ∧ log s2 = log s ++ [EvGetClient; EvBulk body]
            ∧ r = match respond (log s ++ [EvGetClient]) (EvBulk body) with
                  | Returns response => document_success response
                  | Raises x => bulk_error x
                  end)).
Proof.
  rewrite bulk_index_documents_run.
  destruct (respond (log s) EvGetClient) as [client|x] eqn:Hclient.
  - cbn zeta.
    match goal with
    | |- context [EvBulk ?b] => set (body := b)
    end.
    assert (length body = 2 * length documents) as Hlen.
    { unfold body. rewrite length_fmap. destruct generate_ids.
      - apply plain_actions_length.
      - apply actions_of_length. }
    destruct (respond (log s ++ [EvGetClient]) (EvBulk body)) as [response|x] eqn:Hb;
      eexists _, _; (split; [done|]); right; exists client, body;
      (split; [done|]); (split; [done|]); (split; [done|]); by rewrite Hb.
  - eexists _, _. split; [done|]. left. by exists x.
Qed.

(** X17: when identifiers are not generated, [bulk_index_documents] works
    on the caller's documents themselves: after the call each listed
    document has lost its [_id] entry and kept every other entry, and
    every other dictionary is as it was. *)
Theorem bulk_index_documents_pops_ids respond index_name documents s client :
  respond (log s) EvGetClient = Returns client →
  ∃ r s2,
    bulk_index_documents respond index_name documents false s = (Ok r, s2)
    ∧ ∀ l, heap s2 !! l
           = if decide (l ∈ documents) then delete "_id" <$> heap s !! l
             else heap s !! l.
Proof.
  intros Hclient. rewrite bulk_index_documents_run, Hclient. cbn zeta.
  destruct (respond _ (EvBulk _)); eexists _, _; (split; [done|]);
    intros l; apply strip_ids_lookup.
Qed.

Lemma bulk_index_documents_pops_ids_witness :
  ∃ r s2,
    bulk_index_documents respond_acks "kb" [1%positive; 2%positive] false s_documents
    = (Ok r, s2)
    ∧ ∀ l, heap s2 !! l
           = if decide (l ∈ [1%positive; 2%positive])
             then delete "_id" <$> heap s_documents !! l
             else heap s_documents !! l.
Proof.
  apply (bulk_index_documents_pops_ids respond_acks "kb" [1%positive; 2%positive]
           s_documents VNone).
  reflexivity.
Defined.

(** X18: the body of the bulk request when identifiers are not generated.
    For each listed document, in order, it holds an action header naming
    the index and carrying the [_id] the document had (none when it had
    none, and none when the same document was already listed before: its
    [_id] has been popped by then), followed by the document without its
    [_id]. *)
Theorem bulk_index_documents_body respond index_name documents s client :
  respond (log s) EvGetClient = Returns client →
  ∃ r s2 body,
    bulk_index_documents respond index_name documents false s = (Ok r, s2)
    ∧ log s2 = log s ++ [EvGetClient; EvBulk body]
    ∧ ∀ i doc,
        documents !! i = Some doc →
        body !! (2 * i)
        = Some (action_header index_name
                  (if decide (doc ∈ take i documents) then None
                   else contents_of (heap s) doc !! "_id"))
        ∧ body !! (2 * i + 1) = Some (VDict (delete "_id" (contents_of (heap s) doc))).
Proof.
  intros Hclient. rewrite bulk_index_documents_run, Hclient. cbn zeta.
  assert (∀ i doc,
            documents !! i = Some doc →
            (item_value (strip_ids documents (heap s))
               <$> actions_of index_name documents (heap s)) !! (2 * i)
            = Some (action_header index_name
                      (if decide (doc ∈ take i documents) then None
                       else contents_of (heap s) doc !! "_id"))
            ∧ (item_value (strip_ids documents (heap s))
                 <$> actions_of index_name documents (heap s)) !! (2 * i + 1)
              = Some (VDict (delete "_id" (contents_of (heap s) doc)))) as Hbody.
  { intros i doc Hi.
    destruct (actions_of_lookup index_name documents (heap s) i doc Hi) as [Hh Hd].
    rewrite !list_lookup_fmap, Hh, Hd. simpl. split; [done|].
    rewrite strip_ids_lookup.
    rewrite decide_True by (apply list_elem_of_lookup; eauto).
    unfold contents_of. destruct (heap s !! doc); simpl; [done|].
    by rewrite delete_empty. }
  destruct (respond _ (EvBulk _)); eexists _, _, _; (split; [done|]);
    (split; [done|]); exact Hbody.
Qed.

Lemma bulk_index_documents_body_witness :
  ∃ r s2 body,
    bulk_index_documents respond_acks "kb" [1%positive; 2%positive] false s_documents
    = (Ok r, s2)
    ∧ log s2 = log s_documents ++ [EvGetClient; EvBulk body]
    ∧ ∀ i doc,
        [1%positive; 2%positive] !! i = Some doc →
        body !! (2 * i)
        = Some (action_header "kb"
                  (if decide (doc ∈ take i [1%positive; 2%positive]) then None
                   else contents_of (heap s_documents) doc !! "_id"))
        ∧ body !! (2 * i + 1)
          = Some (VDict (delete "_id" (contents_of (heap s_documents) doc))).
Proof.
  apply (bulk_index_documents_body respond_acks "kb" [1%positive; 2%positive]
           s_documents VNone).
  reflexivity.
Defined.

(** X19: when identifiers are generated, [bulk_index_documents] leaves the
    caller's documents as they are: no header carries an identifier, and
    each document goes into the body whole, its [_id] entry included when
    it has one. *)
Theorem bulk_index_documents_generated_ids respond index_name documents s client :
  respond (log s) EvGetClient = Returns client →
  ∃ r s2 body,
    bulk_index_documents respond index_name documents true s = (Ok r, s2)
    ∧ heap s2 = heap s
    ∧ log s2 = log s ++ [EvGetClient; EvBulk body]
    ∧ ∀ i doc,
        documents !! i = Some doc →
        body !! (2 * i) = Some (action_header index_name None)
        ∧ body !! (2 * i + 1) = Some (VDict (contents_of (heap s) doc)).
Proof.
  intros Hclient. rewrite bulk_index_documents_run, Hclient. cbn zeta.
  assert (∀ i doc,
            documents !! i = Some doc →
            (item_value (heap s) <$> plain_actions index_name documents) !! (2 * i)
            = Some (action_header index_name None)
            ∧ (item_value (heap s) <$> plain_actions index_name documents)
                !! (2 * i + 1)
              = Some (VDict (contents_of (heap s) doc))) as Hbody.
  { intros i doc Hi.
    destruct (plain_actions_lookup index_name documents i doc Hi) as [Hh Hd].
    by rewrite !list_lookup_fmap, Hh, Hd. }
  destruct (respond _ (EvBulk _)); eexists _, _, _; (split; [done|]);
    (split; [done|]); (split; [done|]); exact Hbody.
Qed.

Lemma bulk_index_documents_generated_ids_witness :
  ∃ r s2 body,
    bulk_index_documents respond_acks "kb" [1%positive; 2%positive] true s_documents
    = (Ok r, s2)
    ∧ heap s2 = heap s_documents
    ∧ log s2 = log s_documents ++ [EvGetClient; EvBulk body]
    ∧ ∀ i doc,
        [1%positive; 2%positive] !! i = Some doc →
        body !! (2 * i) = Some (action_header "kb" None)
        ∧ body !! (2 * i + 1) = Some (VDict (contents_of (heap s_documents) doc)).
Proof.
  apply (bulk_index_documents_generated_ids respond_acks "kb"
           [1%positive; 2%positive] s_documents VNone).
  reflexivity.
Defined.

Example bulk_index_documents_sample :
  log (snd (bulk_index_documents respond_acks "kb" [1%positive; 2%positive] false
              s_documents))
  = [EvGetClient;
     EvBulk [action_header "kb" (Some (VStr "a")); VDict {[ "title" := VStr "A" ]};
             action_header "kb" None; VDict {[ "title" := VStr "B" ]}]].
Proof. vm_compute. reflexivity. Qed.

Example bulk_index_documents_same_document_twice :
  log (snd (bulk_index_documents respond_acks "kb" [1%positive; 1%positive] false
              s_documents))
  = [EvGetClient;
     EvBulk [action_header "kb" (Some (VStr "a")); VDict {[ "title" := VStr "A" ]};
             action_header "kb" None; VDict {[ "title" := VStr "A" ]}]].
Proof. vm_compute. reflexivity. Qed.

(** ** Start-up without a token *)

(** X20: a server started with [EMBEDDING_API_TOKEN] unset, or set to the
    empty string, answers every call of its two tools with the "API token
    not configured" error, and neither calls the provider or the index nor
    touches the caller's metadata. *)
Theorem server_without_token json_dumps respond environ index_name :
  environ !! "EMBEDDING_API_TOKEN" = None
  ∨ environ !! "EMBEDDING_API_TOKEN" = Some "" →
  (∀ text document_id metadata s,
     index_text_with_embedding respond (server_embedding_tools environ index_name)
       text document_id metadata s
     = (Ok (error_result "API token not configured for embedding service"), s))
  ∧ (∀ text k s,
       text_similarity_search json_dumps respond
         (server_embedding_tools environ index_name) text k s
       = (Ok (error_result "API token not configured for embedding service"), s)).
Proof.
  intros Henv.
  assert (truthy_str (api_token (server_embedding_tools environ index_name)) = false)
    as Htok.
  { unfold server_embedding_tools, environ_get. simpl.
    by destruct Henv as [-> | ->]. }
  split.
  - intros text document_id metadata s.
    apply index_text_embedding_failed. by apply generate_embedding_unconfigured.
  - intros text k s.
    apply text_similarity_search_embedding_failed.
    by apply generate_embedding_unconfigured.
Qed.

Lemma server_without_token_witness :
  (∀ text document_id metadata s,
     index_text_with_embedding respond_sample (server_embedding_tools ∅ "kb")
       text document_id metadata s
     = (Ok (error_result "API token not configured for embedding service"), s))
  ∧ (∀ text k s,
       text_similarity_search json_dumps0 respond_sample
         (server_embedding_tools ∅ "kb") text k s
       = (Ok (error_result "API token not configured for embedding service"), s)).
Proof.
  apply (server_without_token json_dumps0 respond_sample ∅ "kb").
  left. reflexivity.
Defined.
